(** * ChefAI: detection-response normaliser, confidence filter, ingredient
      ranker and recipe formatter

    A shallow embedding of [grocery_detection_utils.py] and
    [recipe_utils.py].

    Conventions of the embedding.
    - A Python [str] is a Rocq [string]; its characters are read as the code
      points 0..255 (Latin-1), for which [str.lower], [str.strip] and
      [str.split] are written out below.
    - A Python [float] is a binary64 primitive float.
    - A JSON object / Python [dict] with string keys is an association list
      looked up from the left.
    - A call that may raise returns a [result]; a [try]/[except] block is a
      match on it.  Every exception of the model derives from [Exception].
    - Library and network code the repository only calls ([json.loads],
      [float] on a [str], [str.format], file reads, the OpenAI client) is taken
      as a section variable; a concrete model of [json.loads] is given for the
      concrete scenarios.
    - Logging and [print] calls have no effect on results and are left out. *)

From Stdlib Require Import ZArith List Ascii String Floats Bool Lia Sorted.
From stdpp Require Import base decidable option list strings gmap.

Open Scope string_scope.
Open Scope nat_scope.
Open Scope list_scope.
Open Scope stdpp_scope.

(** ** Exceptions and results *)

Module Py.

Inductive exn_class : Set :=
| JSONDecodeError | ValueError | TypeError | AttributeError | KeyError
| IndexError | OverflowError | RecursionError
| FileNotFoundError | OSError | OpenAIError | OtherException.

(** An exception object: its class and [str(e)]. *)
Record exn : Set := Exn { exn_cls : exn_class; exn_str : string }.

Inductive result (A : Type) : Type :=
| Ok (a : A)
| Raise (e : exn).
Arguments Ok {A} a.
Arguments Raise {A} e.

Definition bind {A B} (r : result A) (k : A → result B) : result B :=
  match r with
  | Ok a => k a
  | Raise e => Raise e
  end.

Definition is_ok {A} (r : result A) : bool :=
  match r with Ok _ => true | Raise _ => false end.

(** [for x in xs: st = body(st, x)], the first raise leaving the loop. *)
Fixpoint for_each {S A} (body : S → A → result S) (xs : list A) (st : S)
  : result S :=
  match xs with
  | [] => Ok st
  | x :: xs' => bind (body st x) (for_each body xs')
  end.

End Py.
Export Py.

(** [x ← r; k] is stdpp's bind notation, here on [result]. *)
#[global] Instance result_ret : MRet result := @Ok.
#[global] Instance result_bind : MBind result := fun A B k r => Py.bind r k.

(** ** Strings *)

Module Str.

(** [str.isspace] on the code points below 256: 9..13, 28..32, 133, 160. *)
Definition isspace (c : ascii) : bool :=
  let n := nat_of_ascii c in
  ((9 <=? n) && (n <=? 13)) || ((28 <=? n) && (n <=? 32))
  || (n =? 133) || (n =? 160).

(** [str.lower] on one code point below 256: A..Z, and the Latin-1 capitals
    192..222 except the multiplication sign 215, move up by 32. *)
Definition lower_char (c : ascii) : ascii :=
  let n := nat_of_ascii c in
  if ((65 <=? n) && (n <=? 90))
     || ((192 <=? n) && (n <=? 222) && negb (n =? 215))
  then ascii_of_nat (n + 32) else c.

Fixpoint lower (s : string) : string :=
  match s with
  | EmptyString => EmptyString
  | String c s' => String (lower_char c) (lower s')
  end.

Definition is_empty (s : string) : bool :=
  match s with EmptyString => true | String _ _ => false end.

Fixpoint lstrip (s : string) : string :=
  match s with
  | EmptyString => EmptyString
  | String c s' => if isspace c then lstrip s' else s
  end.

Fixpoint rstrip (s : string) : string :=
  match s with
  | EmptyString => EmptyString
  | String c s' =>
      let r := rstrip s' in
      if is_empty r && isspace c then EmptyString else String c r
  end.

(** [s.strip()] *)
Definition strip (s : string) : string := rstrip (lstrip s).

(** [s.split()]: the maximal runs of non-whitespace characters. [cur] is the
    run being read. *)
Fixpoint split_go (s cur : string) : list string :=
  match s with
  | EmptyString => if is_empty cur then [] else [cur]
  | String c s' =>
      if isspace c
      then (if is_empty cur then split_go s' "" else cur :: split_go s' "")
      else split_go s' (cur +:+ String c "")
  end.

Definition split (s : string) : list string := split_go s "".

(** [sep.join(parts)] *)
Fixpoint join (sep : string) (parts : list string) : string :=
  match parts with
  | [] => ""
  | [p] => p
  | p :: ps => p +:+ sep +:+ join sep ps
  end.

Fixpoint starts_with (w s : string) : bool :=
  match w, s with
  | EmptyString, _ => true
  | String a w', String b s' => if Ascii.eqb a b then starts_with w' s' else false
  | String _ _, EmptyString => false
  end.

(** [w in s] for two strings. *)
Fixpoint contains (w s : string) : bool :=
  starts_with w s
  || match s with
     | EmptyString => false
     | String _ s' => contains w s'
     end.

(** [s.find(c)] for a one-character needle: the first index, or -1. *)
Fixpoint find (c : ascii) (s : string) : Z :=
  match s with
  | EmptyString => -1
  | String a s' =>
      if Ascii.eqb a c then 0
      else let r := find c s' in if (r =? -1)%Z then -1 else (r + 1)%Z
  end.

(** [s.rfind(c)] for a one-character needle: the last index, or -1. *)
Fixpoint rfind (c : ascii) (s : string) : Z :=
  match s with
  | EmptyString => -1
  | String a s' =>
      let r := rfind c s' in
      if (r =? -1)%Z then (if Ascii.eqb a c then 0 else -1) else (r + 1)%Z
  end.

(** [s[a:b]]: a negative bound counts from the end, both are clamped to
    [0..len(s)], and the slice is empty when the bounds cross. *)
Definition slice (s : string) (a b : Z) : string :=
  let n := Z.of_nat (String.length s) in
  let clamp i := Z.max 0 (Z.min n (if (i <? 0)%Z then i + n else i))%Z in
  let lo := clamp a in
  let hi := clamp b in
  String.substring (Z.to_nat lo) (Z.to_nat (hi - lo)) s.

(** Every character of [s] satisfies [P]. *)
Fixpoint all_chars (P : ascii → bool) (s : string) : bool :=
  match s with
  | EmptyString => true
  | String c s' => P c && all_chars P s'
  end.

End Str.

(** The double-quote character, and a string in double quotes. *)
Definition dq : string := String "034"%char "".
Definition quoted (s : string) : string := dq +:+ s +:+ dq.

(** ** Python values *)

(** The values [json.loads] produces, which are also the values a detection
    dict holds. *)
#[warnings="-register-all"] Inductive pyval : Type :=
| VNone
| VBool (b : bool)
| VInt (n : Z)
| VFloat (f : float)
| VStr (s : string)
| VList (l : list pyval)
| VDict (d : list (string * pyval)).

(** A dict with string keys. *)
Definition dict : Type := list (string * pyval).

Fixpoint dict_lookup (d : dict) (k : string) : option pyval :=
  match d with
  | [] => None
  | (k', v) :: d' => if String.eqb k' k then Some v else dict_lookup d' k
  end.

(** [k in d] *)
Definition dict_contains (d : dict) (k : string) : bool :=
  match dict_lookup d k with Some _ => true | None => false end.

(** [d.get(k, default)] *)
Definition dict_get (d : dict) (k : string) (default : pyval) : pyval :=
  match dict_lookup d k with Some v => v | None => default end.

(** The receiver of a [str] method: anything but a [str] has no such
    attribute. *)
Definition as_str (v : pyval) : result string :=
  match v with
  | VStr s => Ok s
  | _ => Raise (Exn AttributeError "object has no such attribute")
  end.

(** [for x in v]: a list yields its elements, a dict its keys, a str its
    characters; nothing else is iterable. *)
Definition py_iter (v : pyval) : result (list pyval) :=
  match v with
  | VList l => Ok l
  | VDict d => Ok (map (fun kv => VStr (fst kv)) d)
  | VStr s => Ok (map (fun c => VStr (String c "")) (list_ascii_of_string s))
  | _ => Raise (Exn TypeError "object is not iterable")
  end.

(** *** Floats *)

Definition float_half : float := 0.5%float.

(** [float(n)] for an int: the nearest binary64, [OverflowError] beyond the
    largest one. *)
Definition float_of_int (n : Z) : result float :=
  let f := SF2Prim (binary_normalize prec emax n 0 false) in
  if PrimFloat.is_infinity f
  then Raise (Exn OverflowError "int too large to convert to float")
  else Ok f.

(** [n >= f] for an int and a float, compared exactly as Python does. *)
Definition int_ge_float (n : Z) (f : float) : bool :=
  match Prim2SF f with
  | S754_zero _ => (0 <=? n)%Z
  | S754_infinity neg => neg
  | S754_nan => false
  | S754_finite neg m e =>
      let m' := if neg then Z.neg m else Z.pos m in
      if (0 <=? e)%Z then (m' * 2 ^ e <=? n)%Z
      else (m' <=? n * 2 ^ (- e))%Z
  end.

Definition int_of_bool (b : bool) : Z := if b then 1%Z else 0%Z.

(** [v >= thr] for a float [thr]: defined on numbers, [TypeError]
    otherwise. *)
Definition py_ge_float (v : pyval) (thr : float) : result bool :=
  match v with
  | VFloat f => Ok (PrimFloat.leb thr f)
  | VInt n => Ok (int_ge_float n thr)
  | VBool b => Ok (int_ge_float (int_of_bool b) thr)
  | _ => Raise (Exn TypeError "'>=' not supported between these types")
  end.

(** ** [GroceryObjectDetector]: the response normaliser and the confidence
       filter *)

Section Normalizer.

(** [json.loads] *)
Variable json_loads : string → result pyval.
(** [float(s)] for a [str] *)
Variable float_of_str : string → result float.

(** [float(v)] *)
Definition py_float (v : pyval) : result float :=
  match v with
  | VFloat f => Ok f
  | VInt n => float_of_int n
  | VBool b => float_of_int (int_of_bool b)
  | VStr s => float_of_str s
  | _ => Raise (Exn TypeError "float() argument must be a string or a real number")
  end.

(** [_parse_text_response]: the fallback parser returns the empty list. *)
Definition _parse_text_response (content : pyval) : result (list dict) :=
  Ok [].

(** One turn of the loop over the parsed array: the record built from
    [detection] is appended when it is a dict with a ['name'] key. *)
Definition normalize_detection (normalized_detections : list dict)
    (detection : pyval) : result (list dict) :=
  match detection with
  | VDict d =>
      if dict_contains d "name" then
        confidence ← py_float (dict_get d "confidence" (VFloat float_half));
        Ok (normalized_detections ++
            [[("name", dict_get d "name" (VStr "unknown"));
              ("confidence", VFloat confidence);
              ("category", dict_get d "category" (VStr "other"));
              ("description",
               dict_get d "description" (dict_get d "name" (VStr "unknown")))]])
      else Ok normalized_detections
  | _ => Ok normalized_detections
  end.

(** The [try] body of [_parse_vision_response]. *)
Definition parse_vision_body (content : pyval) : result (list dict) :=
  s ← as_str content;
  let json_start := Str.find "[" s in
  let json_end := (Str.rfind "]" s + 1)%Z in
  if negb (json_start =? -1)%Z && negb (json_end =? -1)%Z then
    let json_str := Str.slice s json_start json_end in
    detections ← json_loads json_str;
    items ← py_iter detections;
    for_each normalize_detection items []
  else _parse_text_response content.

(** [_parse_vision_response]: [json.JSONDecodeError] goes to the fallback
    parser, any other exception to the empty list. *)
Definition _parse_vision_response (content : pyval) : result (list dict) :=
  match parse_vision_body content with
  | Ok normalized_detections => Ok normalized_detections
  | Raise e =>
      match exn_cls e with
      | JSONDecodeError => _parse_text_response content
      | _ => Ok []
      end
  end.

(** The list comprehension of [detect_grocery_items]:
    [[d for d in detections if d.get('confidence', 0) >= threshold]]. *)
Definition confidence_filter (confidence_threshold : float)
    (detections : list dict) : result (list dict) :=
  for_each
    (fun (kept : list dict) (detection : dict) =>
       keep ← py_ge_float (dict_get detection "confidence" (VInt 0))
                          confidence_threshold;
       Ok (if (keep : bool) then kept ++ [detection] else kept))
    detections [].

(** [_encode_image]: reads and base64-encodes the file, or raises. *)
Variable _encode_image : string → result string.
(** [client.chat.completions.create(...)] with the fixed model, prompt and
    sampling parameters, followed by [response.choices[0].message.content];
    the argument is the encoded image. *)
Variable vision_create : string → result pyval.

(** [detect_grocery_items] *)
Definition detect_grocery_items (confidence_threshold : float)
    (image_path : string) : result (list dict) :=
  match
    (base64_image ← _encode_image image_path;
     content ← vision_create base64_image;
     detections ← _parse_vision_response content;
     confidence_filter confidence_threshold detections)
  with
  | Ok filtered_detections => Ok filtered_detections
  | Raise _ => Ok []
  end.

End Normalizer.

(** ** [GroceryObjectDetector]: the ingredient ranker *)

(** [list.sort(key=...)]: Python's sort is stable; the model inserts each
    element, from the right, before the first element whose key is not
    smaller, which keeps elements of equal key in their original order. *)
Fixpoint insert_by_key {A} (key : A → Z) (x : A) (l : list A) : list A :=
  match l with
  | [] => [x]
  | y :: l' =>
      if (key x <=? key y)%Z then x :: y :: l'
      else y :: insert_by_key key x l'
  end.

Fixpoint sort_by_key {A} (key : A → Z) (l : list A) : list A :=
  match l with
  | [] => []
  | x :: l' => insert_by_key key x (sort_by_key key l')
  end.

Definition remove_words : list string :=
  ["fresh"; "organic"; "bottle"; "jar"; "can"; "package"; "container";
   "bag"; "box"; "carton"; "tube"; "frozen"; "canned"; "dried"].

Definition ingredient_mappings : gmap string string :=
  list_to_map
    [("bell pepper", "bell peppers");
     ("red pepper", "red bell pepper");
     ("green pepper", "green bell pepper");
     ("yellow pepper", "yellow bell pepper");
     ("soy sauce", "soy sauce");
     ("olive oil", "olive oil");
     ("cooking oil", "cooking oil");
     ("vegetable oil", "vegetable oil")].

(** [_normalize_ingredient_name] *)
Definition _normalize_ingredient_name (name : string) : string :=
  let words := Str.split (Str.lower name) in
  let filtered_words := filter (fun word => word ∉ remove_words) words in
  let clean_name := Str.strip (Str.join " " filtered_words) in
  default clean_name (ingredient_mappings !! clean_name).

Definition invalid_terms : gset string :=
  {[ "unknown"; "other"; "mixed"; "variety"; "assorted"; "generic";
     "food"; "item"; "product"; "thing"; "stuff"; "container";
     "package"; "wrapper"; "label"; "brand" ]}.

Definition food_categories : gset string :=
  {[ "vegetable"; "fruit"; "protein"; "dairy"; "pantry";
     "condiment"; "spice"; "herb"; "grain"; "legume" ]}.

Definition food_words : list string :=
  ["oil"; "sauce"; "spice"; "herb"; "salt"; "pepper"; "vinegar"].

(** [_is_valid_ingredient] *)
Definition _is_valid_ingredient (name category : string) : bool :=
  if String.length name <? 2 then false
  else if bool_decide (name ∈ invalid_terms) then false
  else bool_decide (category ∈ food_categories)
       || existsb (fun word => Str.contains word name) food_words.

Definition high_priority : gset string :=
  {[ "onion"; "garlic"; "tomato"; "potato"; "carrot"; "bell pepper";
     "olive oil"; "salt"; "pepper"; "eggs"; "butter"; "cheese" ]}.

Definition medium_priority : gset string :=
  {[ "chicken"; "beef"; "fish"; "rice"; "pasta"; "bread"; "milk";
     "lettuce"; "spinach"; "broccoli"; "lemon"; "lime" ]}.

(** [_get_ingredient_priority] *)
Definition _get_ingredient_priority (ingredient : string) : Z :=
  if bool_decide (ingredient ∈ high_priority) then 1
  else if bool_decide (ingredient ∈ medium_priority) then 2
  else 3.

(** One turn of the loop of [get_ingredient_suggestions]; the state is
    [(ingredients, seen_ingredients)]. *)
Definition suggestion_step (st : list string * gset string)
    (detection : dict) : result (list string * gset string) :=
  let '(ingredients, seen_ingredients) := st in
  name ← as_str (dict_get detection "name" (VStr ""));
  let item_name := Str.strip (Str.lower name) in
  cat ← as_str (dict_get detection "category" (VStr "other"));
  let category := Str.lower cat in
  if Str.is_empty item_name then Ok st
  else
    let clean_name := _normalize_ingredient_name item_name in
    if _is_valid_ingredient clean_name category then
      if bool_decide (clean_name ∉ seen_ingredients) then
        Ok (ingredients ++ [clean_name], seen_ingredients ∪ {[ clean_name ]})
      else Ok st
    else Ok st.

(** The loop: the deduplicated ingredient names, before they are sorted. *)
Definition collect_ingredients (detections : list dict)
  : result (list string) :=
  st ← for_each suggestion_step detections ([], ∅);
  Ok (fst st).

(** [get_ingredient_suggestions] *)
Definition get_ingredient_suggestions (detections : list dict)
  : result (list string) :=
  match detections with
  | [] => Ok []
  | _ =>
      ingredients ← collect_ingredients detections;
      Ok (take 15 (sort_by_key _get_ingredient_priority ingredients))
  end.

(** ** [recipe_utils]: the detection entry point *)

(** 0.4, the nearest binary64. *)
Definition default_threshold : float := 0x1.999999999999ap-2%float.

Section Detection.

Variable json_loads : string → result pyval.
Variable float_of_str : string → result float.
Variable _encode_image : string → result string.
Variable vision_create : string → result pyval.
(** [GroceryObjectDetector(model_source="openai_vision", ...)]: the
    constructor builds the OpenAI client and re-raises its failure. *)
Variable detector_init : result unit.

(** [detect_objects_detectron2] *)
Definition detect_objects_detectron2 (image_path : string)
  : result (list string) :=
  match
    (_ ← detector_init;
     detections ← detect_grocery_items json_loads float_of_str
                    _encode_image vision_create default_threshold image_path;
     suggested_ingredients ← get_ingredient_suggestions detections;
     Ok (take 10 suggested_ingredients))
  with
  | Ok r => Ok r
  | Raise _ => Ok []
  end.

End Detection.

(** ** [recipe_utils]: the recipe formatter and invoker *)

Definition prompt_path : string := "prompts/recipe_prompt.txt".

Definition newline : string := String "010"%char "".

Definition recipes_header : string := "**Your AI-Generated Recipes:**".

(** The string returned by the [except] branch for an exception [e]. *)
Definition recipe_error_string (e : exn) : string :=
  let error_msg := "Error generating recipes: " +:+ exn_str e in
  "**Error:** " +:+ error_msg +:+ newline +:+ newline
  +:+ "Please try again or check your OpenAI API configuration.".

Section Recipes.

(** [open(path, 'r', encoding='utf-8').read()] *)
Variable open_read : string → result string.
(** [template.format(ingredients=..., mood=...)] with the template, the
    ingredient string and the mood. *)
Variable str_format : string → string → string → result string.
(** [os.getenv] *)
Variable getenv : string → option string.
(** [OpenAI()] followed by [client.chat.completions.create(...)] with the
    fixed system message and sampling parameters, then
    [response.choices[0].message.content]; the arguments are the model name
    and the formatted prompt. *)
Variable chat_create : string → string → result (option string).

(** [load_recipe_prompt]: both handlers log and re-raise. *)
Definition load_recipe_prompt : result string :=
  match open_read prompt_path with
  | Ok text => Ok text
  | Raise e =>
      match exn_cls e with
      | FileNotFoundError => Raise e
      | OSError => Raise e
      | _ => Raise e
      end
  end.

(** The [try] body of [generate_recipes_from_prompt]. *)
Definition generate_recipes_body (ingredients : list string) (mood : string)
  : result string :=
  let ingredient_list := Str.join ", " ingredients in
  prompt_template ← load_recipe_prompt;
  formatted_prompt ← str_format prompt_template ingredient_list mood;
  let model_name := default "gpt-4o-mini" (getenv "OPENAI_MODEL") in
  content ← chat_create model_name formatted_prompt;
  let result := Str.strip (default "" content) in
  Ok (recipes_header +:+ newline +:+ newline +:+ result).

(** [generate_recipes_from_prompt] *)
Definition generate_recipes_from_prompt (ingredients : list string)
    (mood : string) : result string :=
  match generate_recipes_body ingredients mood with
  | Ok text => Ok text
  | Raise e => Ok (recipe_error_string e)
  end.

End Recipes.

(** ** A model of [json.loads]

    A recursive-descent reader for the JSON grammar as Python accepts it
    (including the literals [NaN], [Infinity] and [-Infinity]).  It serves the
    concrete scenarios; the general theorems hold for every [json_loads].
    An escape [\uXXXX] above code point 255 is outside the modelled strings
    and is reported as a decode error. *)

Module Json.

Definition decode_error : exn := Exn JSONDecodeError "Expecting value".

Definition is_ws (c : ascii) : bool :=
  let n := nat_of_ascii c in
  (n =? 32) || (n =? 9) || (n =? 10) || (n =? 13).

Fixpoint skip_ws (s : string) : string :=
  match s with
  | String c s' => if is_ws c then skip_ws s' else s
  | EmptyString => EmptyString
  end.

Definition digit_of (c : ascii) : option Z :=
  let n := nat_of_ascii c in
  if (48 <=? n) && (n <=? 57) then Some (Z.of_nat (n - 48)) else None.

Definition hex_of (c : ascii) : option nat :=
  let n := nat_of_ascii c in
  if (48 <=? n) && (n <=? 57) then Some (n - 48)
  else if (65 <=? n) && (n <=? 70) then Some (n - 55)
  else if (97 <=? n) && (n <=? 102) then Some (n - 87)
  else None.

(** The digits at the head of [s]: their value continuing [acc], their
    number, and the rest. *)
Fixpoint read_digits (s : string) (acc : Z) (count : nat)
  : Z * nat * string :=
  match s with
  | String c s' =>
      match digit_of c with
      | Some d => read_digits s' (acc * 10 + d)%Z (S count)
      | None => (acc, count, s)
      end
  | EmptyString => (acc, count, s)
  end.

(** The binary64 nearest to [(-1)^neg * m * 10^e]. *)
Definition float_of_decimal (neg : bool) (m : Z) (e : Z) : float :=
  match m with
  | Zpos p =>
      if (0 <=? e)%Z then
        SF2Prim (binary_normalize prec emax
                   (if neg then - (m * 10 ^ e) else m * 10 ^ e)%Z 0 false)
      else
        SF2Prim (SFdiv prec emax (S754_finite neg p 0)
                   (S754_finite false (Z.to_pos (10 ^ (- e))) 0))
  | _ => SF2Prim (S754_zero neg)
  end.

(** The integer part of a number: a lone [0], or digits not starting
    with [0]. *)
Definition read_int_part (s : string) : option (Z * string) :=
  match s with
  | String "0" s' => Some (0%Z, s')
  | _ =>
      let '(v, n, r) := read_digits s 0 0 in
      if 0 <? n then Some (v, r) else None
  end.

(** A number after its optional sign: an int when it has neither fraction
    nor exponent, a float otherwise. *)
Definition read_number (neg : bool) (s : string) : option (pyval * string) :=
  match read_int_part s with
  | None => None
  | Some (ip, r) =>
    let '(m, fracn, r1, has_frac) :=
      match r with
      | String "." r' =>
          let '(m, k, r'') := read_digits r' ip 0 in
          if 0 <? k then (m, k, r'', true) else (ip, 0, r, false)
      | _ => (ip, 0, r, false)
      end in
    let '(ex, r2, has_exp) :=
      match r1 with
      | String c r' =>
          if Ascii.eqb c "e" || Ascii.eqb c "E" then
            let '(eneg, r'') :=
              match r' with
              | String "-" t => (true, t)
              | String "+" t => (false, t)
              | _ => (false, r')
              end in
            let '(ev, k, r''') := read_digits r'' 0 0 in
            if 0 <? k then ((if eneg then - ev else ev)%Z, r''', true)
            else (0%Z, r1, false)
          else (0%Z, r1, false)
      | EmptyString => (0%Z, r1, false)
      end in
    if has_frac || has_exp
    then Some (VFloat (float_of_decimal neg m (ex - Z.of_nat fracn)), r2)
    else Some (VInt (if neg then - m else m)%Z, r2)
  end.

(** The body of a string after its opening quote: the decoded text and the
    rest after the closing quote. *)
Fixpoint read_string (s acc : string) : option (string * string) :=
  match s with
  | EmptyString => None
  | String c s' =>
      if Ascii.eqb c "034" then Some (acc, s')
      else if Ascii.eqb c "\" then
        match s' with
        | String e s'' =>
            let simple (x : ascii) := read_string s'' (acc +:+ String x "") in
            if Ascii.eqb e "034" then simple "034"%char
            else if Ascii.eqb e "\" then simple "\"%char
            else if Ascii.eqb e "/" then simple "/"%char
            else if Ascii.eqb e "b" then simple "008"%char
            else if Ascii.eqb e "f" then simple "012"%char
            else if Ascii.eqb e "n" then simple "010"%char
            else if Ascii.eqb e "r" then simple "013"%char
            else if Ascii.eqb e "t" then simple "009"%char
            else if Ascii.eqb e "u" then
              match s'' with
              | String h1 (String h2 (String h3 (String h4 t))) =>
                  match hex_of h1, hex_of h2, hex_of h3, hex_of h4 with
                  | Some a, Some b, Some c', Some d =>
                      let code := ((a * 16 + b) * 16 + c') * 16 + d in
                      if code <? 256
                      then read_string t (acc +:+ String (ascii_of_nat code) "")
                      else None
                  | _, _, _, _ => None
                  end
              | _ => None
              end
            else None
        | EmptyString => None
        end
      else if nat_of_ascii c <? 32 then None
      else read_string s' (acc +:+ String c "")
  end.

(** [d[k] = v]: an existing key keeps its place and takes the new value. *)
Fixpoint dict_set (d : dict) (k : string) (v : pyval) : dict :=
  match d with
  | [] => [(k, v)]
  | (k', v') :: d' =>
      if String.eqb k' k then (k, v) :: d' else (k', v') :: dict_set d' k v
  end.

Definition strip_prefix (w s : string) : option string :=
  if Str.starts_with w s
  then Some (String.substring (String.length w)
               (String.length s - String.length w) s)
  else None.

(** One value at the head of [s] (no leading whitespace), the elements of
    an array after its ['['], and the members of an object after its
    ['{']. *)
Fixpoint read_value (fuel : nat) (s : string) {struct fuel}
  : option (pyval * string) :=
  match fuel with
  | O => None
  | S fuel' =>
      match s with
      | String "034" s' =>
          match read_string s' "" with
          | Some (str, r) => Some (VStr str, r)
          | None => None
          end
      | String "[" s' =>
          match skip_ws s' with
          | String "]" r => Some (VList [], r)
          | s'' => read_elements fuel' s'' []
          end
      | String "{" s' =>
          match skip_ws s' with
          | String "}" r => Some (VDict [], r)
          | s'' => read_members fuel' s'' []
          end
      | String "-" s' =>
          match strip_prefix "Infinity" s' with
          | Some r => Some (VFloat neg_infinity, r)
          | None => read_number true s'
          end
      | _ =>
          match strip_prefix "null" s, strip_prefix "true" s,
                strip_prefix "false" s, strip_prefix "NaN" s,
                strip_prefix "Infinity" s with
          | Some r, _, _, _, _ => Some (VNone, r)
          | _, Some r, _, _, _ => Some (VBool true, r)
          | _, _, Some r, _, _ => Some (VBool false, r)
          | _, _, _, Some r, _ => Some (VFloat nan, r)
          | _, _, _, _, Some r => Some (VFloat infinity, r)
          | _, _, _, _, _ => read_number false s
          end
      end
  end
with read_elements (fuel : nat) (s : string) (acc : list pyval) {struct fuel}
  : option (pyval * string) :=
  match fuel with
  | O => None
  | S fuel' =>
      match read_value fuel' s with
      | Some (v, r) =>
          match skip_ws r with
          | String "," r' => read_elements fuel' (skip_ws r') (acc ++ [v])
          | String "]" r' => Some (VList (acc ++ [v]), r')
          | _ => None
          end
      | None => None
      end
  end
with read_members (fuel : nat) (s : string) (acc : dict) {struct fuel}
  : option (pyval * string) :=
  match fuel with
  | O => None
  | S fuel' =>
      match s with
      | String "034" s' =>
          match read_string s' "" with
          | Some (k, r) =>
              match skip_ws r with
              | String ":" r' =>
                  match read_value fuel' (skip_ws r') with
                  | Some (v, r'') =>
                      match skip_ws r'' with
                      | String "," t =>
                          read_members fuel' (skip_ws t) (dict_set acc k v)
                      | String "}" t => Some (VDict (dict_set acc k v), t)
                      | _ => None
                      end
                  | None => None
                  end
              | _ => None
              end
          | None => None
          end
      | _ => None
      end
  end.

(** [json.loads(s)]: one value between optional whitespace, nothing after. *)
Definition loads (s : string) : result pyval :=
  match read_value (2 * String.length s + 2) (skip_ws s) with
  | Some (v, r) =>
      if Str.is_empty (skip_ws r) then Ok v else Raise decode_error
  | None => Raise decode_error
  end.

End Json.

(** ** Notions used to state the properties *)

(** A string that [str.lower] leaves unchanged. *)
Definition is_low (c : ascii) : bool := Ascii.eqb (Str.lower_char c) c.
Definition lowercase (s : string) : Prop := Str.lower s = s.

(** The first index of [x] in [l], or [length l] when [x] is absent. *)
Fixpoint index_of (x : string) (l : list string) : nat :=
  match l with
  | [] => 0
  | y :: l' => if decide (y = x) then 0 else S (index_of x l')
  end.

(** Duplicates removed, every first occurrence kept in its place. *)
Fixpoint dedup_first (l : list string) : list string :=
  match l with
  | [] => []
  | x :: l' => x :: filter (fun y => y ≠ x) (dedup_first l')
  end.

(** Appending the names of [l] that are not yet in the accumulator. *)
Definition dedup_into (acc l : list string) : list string :=
  fold_left (fun acc x => if decide (x ∈ acc) then acc else acc ++ [x]) l acc.

(** The ['name'] and ['category'] of a detection are strings when present,
    as the type of a Detection requires. *)
Definition str_fields (d : dict) : bool :=
  match dict_get d "name" (VStr ""), dict_get d "category" (VStr "other") with
  | VStr _, VStr _ => true
  | _, _ => false
  end.

(** The ingredient name a detection contributes to the ranker, if any: its
    normalised name when that is a valid ingredient. *)
Definition candidate (d : dict) : option string :=
  match dict_get d "name" (VStr ""), dict_get d "category" (VStr "other") with
  | VStr name, VStr cat =>
      let item_name := Str.strip (Str.lower name) in
      let clean_name := _normalize_ingredient_name item_name in
      if Str.is_empty item_name then None
      else if _is_valid_ingredient clean_name (Str.lower cat)
           then Some clean_name else None
  | _, _ => None
  end.

(** The candidate names of a detection list, in input order, duplicates
    included. *)
Definition candidates (ds : list dict) : list string := omap candidate ds.

(** [x] is the name the ranker derives from detection [d], and [d] passes the
    food test on its category [cat_of d] or on the name itself. *)
Definition originates (cat_of : string → string) (x : string) (d : dict)
  : Prop :=
  ∃ name cat,
    dict_get d "name" (VStr "") = VStr name
    ∧ dict_get d "category" (VStr "other") = VStr cat
    ∧ x = _normalize_ingredient_name (Str.strip (Str.lower name))
    ∧ (cat_of cat ∈ food_categories
       ∨ ∃ w, w ∈ food_words ∧ Str.contains w x = true).

(** The confidence of a detection is a number when present. *)
Definition numeric_confidence (d : dict) : bool :=
  match dict_get d "confidence" (VInt 0) with
  | VFloat _ | VInt _ | VBool _ => true
  | _ => false
  end.

(** [confidence >= thr], a missing confidence counting as 0. *)
Definition meets_threshold (thr : float) (d : dict) : bool :=
  match dict_get d "confidence" (VInt 0) with
  | VFloat f => PrimFloat.leb thr f
  | VInt n => int_ge_float n thr
  | VBool b => int_ge_float (int_of_bool b) thr
  | _ => false
  end.

(** An array element that is a dict with a ['name'] key. *)
Definition has_name (v : pyval) : bool :=
  match v with
  | VDict d => dict_contains d "name"
  | _ => false
  end.

(** The record the normaliser is to build from a named element [v], in the
    words of the specification: the name is kept, a missing confidence is
    0.5 and a present one is converted by [to_float], a missing category is
    ["other"], a missing description is the name. *)
Definition coerced (to_float : pyval → result float) (v : pyval) (r : dict)
  : Prop :=
  ∃ d name conf cat desc,
    v = VDict d
    ∧ dict_lookup d "name" = Some name
    ∧ r = [("name", name); ("confidence", VFloat conf);
           ("category", cat); ("description", desc)]
    ∧ match dict_lookup d "confidence" with
      | None => conf = float_half
      | Some c => to_float c = Ok conf
      end
    ∧ cat = default (VStr "other") (dict_lookup d "category")
    ∧ desc = default name (dict_lookup d "description").

(** A named element whose confidence, when present, [to_float] accepts. *)
Definition convertible (to_float : pyval → result float) (v : pyval) : Prop :=
  match v with
  | VDict d =>
      match dict_lookup d "confidence" with
      | Some c => is_ok (to_float c) = true
      | None => True
      end
  | _ => True
  end.

(** ** Concrete inputs *)

(** 0.9, the nearest binary64. *)
Definition float_0_9 : float := 0x1.ccccccccccccdp-1%float.

(** Scenario 1: the JSON object of the response, the array around it ... *)
Definition scenario_object : string :=
  "{" +:+ quoted "name" +:+ ":" +:+ quoted "Red Bell Pepper" +:+ ","
  +:+ quoted "confidence" +:+ ":0.9,"
  +:+ quoted "category" +:+ ":" +:+ quoted "vegetable" +:+ ","
  +:+ quoted "description" +:+ ":" +:+ quoted "a pepper" +:+ "}".

Definition scenario_json : string := "[" +:+ scenario_object +:+ "]".

(** ... and the response text: the prose, a backslash, an [n], the array. *)
Definition scenario_prose : string := "Here are the items:\n".
Definition scenario_text : string := scenario_prose +:+ scenario_json.

(** The array as [json.loads] reads it. *)
Definition scenario_value : pyval :=
  VList [VDict [("name", VStr "Red Bell Pepper");
                ("confidence", VFloat float_0_9);
                ("category", VStr "vegetable");
                ("description", VStr "a pepper")]].

(** The one detection of scenario 1. *)
Definition scenario_detection : dict :=
  [("name", VStr "Red Bell Pepper");
   ("confidence", VFloat float_0_9);
   ("category", VStr "vegetable");
   ("description", VStr "a pepper")].

(** Two detections that both normalise to ["garlic"]. *)
Definition garlic_detections : list dict :=
  [[("name", VStr "Fresh Organic Garlic"); ("confidence", VFloat 0.5%float);
    ("category", VStr "vegetable"); ("description", VStr "garlic")];
   [("name", VStr "garlic"); ("confidence", VFloat 0.5%float);
    ("category", VStr "other"); ("description", VStr "garlic")]].

(** Three tier-3 names and a tier-1 name between them. *)
Definition tier_detections : list dict :=
  [[("name", VStr "Zucchini"); ("category", VStr "vegetable")];
   [("name", VStr "kale"); ("category", VStr "vegetable")];
   [("name", VStr "Onion"); ("category", VStr "vegetable")];
   [("name", VStr "apple"); ("category", VStr "fruit")]].

(** A detection whose category is written in capitals. *)
Definition kale_detection : dict :=
  [("name", VStr "kale"); ("confidence", VFloat float_0_9);
   ("category", VStr "VEGETABLE"); ("description", VStr "kale")].

(** A response in which the first element has a confidence of [null]. *)
Definition null_confidence_text : string :=
  "[{" +:+ quoted "name" +:+ ":" +:+ quoted "apple" +:+ ","
  +:+ quoted "confidence" +:+ ":null},{"
  +:+ quoted "name" +:+ ":" +:+ quoted "banana" +:+ "}]".

(** [float(s)] is not needed on these inputs: a stand-in that rejects every
    string. *)
Definition no_float_of_str (s : string) : result float :=
  Raise (Exn ValueError "could not convert string to float").

(** A file system without the prompt template. *)
Definition missing_template (path : string) : result string :=
  Raise (Exn FileNotFoundError
           "[Errno 2] No such file or directory: 'prompts/recipe_prompt.txt'").

(** A file system with a template, a formatter that appends both arguments,
    and a text model that answers with padded text. *)
Definition template_present (path : string) : result string :=
  Ok "Cook with {ingredients} in a {mood} mood.".
Definition simple_format (template ingredients mood : string)
  : result string :=
  Ok (template +:+ ingredients +:+ mood).
Definition no_env (name : string) : option string := None.
Definition padded_answer (model prompt : string) : result (option string) :=
  Ok (Some "  Recipe 1: Omelette  ").
Definition failing_model (model prompt : string) : result (option string) :=
  Raise (Exn OpenAIError "Connection error.").


(** Detections with confidences 0.9, 0.25 and none. *)
Definition mixed_confidences : list dict :=
  [scenario_detection;
   [("name", VStr "mystery jar"); ("confidence", VFloat 0.25%float)];
   [("name", VStr "salt")]].

(** The text of scenario 2, without brackets. *)
Definition prose_only : string := "I see an apple and a banana.".

(** The exception raised for the missing template. *)
Definition template_missing_error : exn :=
  Exn FileNotFoundError
    "[Errno 2] No such file or directory: 'prompts/recipe_prompt.txt'".

(** ** Further notions *)

(** A non-empty string without whitespace: what [str.split] returns. *)
Definition non_space (c : ascii) : bool := negb (Str.isspace c).
Definition is_word (w : string) : bool :=
  negb (Str.is_empty w) && Str.all_chars non_space w.

(** The words [_normalize_ingredient_name] keeps of a name. *)
Definition kept_words (name : string) : list string :=
  filter (fun word => word ∉ remove_words) (Str.split (Str.lower name)).

(** The four-key record built by the normaliser. *)
Definition detection_record (name : pyval) (confidence : float)
    (category description : pyval) : dict :=
  [("name", name); ("confidence", VFloat confidence);
   ("category", category); ("description", description)].

Definition is_record (d : dict) : Prop :=
  ∃ name confidence category description,
    d = detection_record name confidence category description.

(** What the vision call hands to the normaliser for an image: the content
    of the answer, unless reading the image or the call itself raises. *)
Definition vision_content (_encode_image : string → result string)
    (vision_create : string → result pyval) (image_path : string)
  : result pyval :=
  base64_image ← _encode_image image_path;
  vision_create base64_image.

(** ** [main]: the custom ingredients

    [s.split(sep)] for a one-character separator: the pieces between the
    separators, empty pieces included. [cur] is the piece being read. *)
Fixpoint split_on (sep : ascii) (s cur : string) : list string :=
  match s with
  | EmptyString => [cur]
  | String c s' =>
      if Ascii.eqb c sep then cur :: split_on sep s' ""
      else split_on sep s' (cur +:+ String c "")
  end.

(** The custom list of [render_ingredient_selection_section]:
    [[item.strip() for item in custom_ingredients.split(',') if item.strip()]]
    for a non-empty text, the empty list otherwise. *)
Definition custom_list (custom_ingredients : string) : list string :=
  if Str.is_empty custom_ingredients then []
  else
    map Str.strip
      (List.filter (fun item => negb (Str.is_empty (Str.strip item)))
         (split_on "," custom_ingredients "")).

(** An entry as the custom list holds it: not empty, nothing to strip, no
    comma. *)
Definition not_comma (c : ascii) : bool := negb (Ascii.eqb c ",").
Definition is_entry (item : string) : Prop :=
  Str.is_empty item = false
  ∧ Str.strip item = item
  ∧ Str.all_chars not_comma item = true.

(** ** Further concrete inputs *)

(** Sixteen distinct vegetables; the only tier-1 name comes last. *)
Definition sixteen_detections : list dict :=
  map (fun name => [("name", VStr name); ("category", VStr "vegetable")])
    ["kale"; "leek"; "okra"; "chard"; "fennel"; "radish"; "turnip";
     "celery"; "squash"; "endive"; "parsnip"; "shallot"; "rhubarb";
     "zucchini"; "beetroot"; "onion"].

Definition sixteen_output : list string :=
  ["onion"; "kale"; "leek"; "okra"; "chard"; "fennel"; "radish"; "turnip";
   "celery"; "squash"; "endive"; "parsnip"; "shallot"; "rhubarb";
   "zucchini"].

(** A detection list whose second name is [None]. *)
Definition null_name_detections : list dict :=
  [kale_detection; [("name", VNone); ("category", VStr "vegetable")]].

Definition bell_pepper_detection : dict :=
  [("name", VStr "Fresh Bell Pepper"); ("category", VStr "vegetable")].

(** An image that cannot be read, and one that can; a vision model that
    answers with an array whose first name is a number. *)
Definition unreadable_image (path : string) : result string :=
  Raise (Exn FileNotFoundError "[Errno 2] No such file or directory").
Definition readable_image (path : string) : result string := Ok "aGVsbG8=".
Definition numeric_name_text : string :=
  "[{" +:+ quoted "name" +:+ ":5},{"
  +:+ quoted "name" +:+ ":" +:+ quoted "kale" +:+ ","
  +:+ quoted "category" +:+ ":" +:+ quoted "vegetable" +:+ "}]".
Definition numeric_name_answer (base64_image : string) : result pyval :=
  Ok (VStr numeric_name_text).
Definition numeric_name_detections : list dict :=
  [detection_record (VInt 5) float_half (VStr "other") (VInt 5);
   detection_record (VStr "kale") float_half (VStr "vegetable") (VStr "kale")].

(** A formatter that finds an unknown placeholder in the template. *)
Definition failing_format (template ingredients mood : string)
  : result string :=
  Raise (Exn KeyError "'servings'").

(** ** [main]: the statistics cards

    The counts of [render_stats_cards]:
    [len([ing for ing in final_ingredients if ing in suggested_ingredients])]
    and [len(selected_common) + len(custom_list)]. *)
Definition ai_selected (final_ingredients suggested_ingredients : list string)
  : nat :=
  length (filter (fun ing => ing ∈ suggested_ingredients) final_ingredients).

Definition manual_selected (selected_common custom_list : list string) : nat :=
  length selected_common + length custom_list.

(** [final] is a [list(set(l))]: the elements of [l], each once, in some
    order. *)
Definition list_of_set (l final : list string) : Prop :=
  NoDup final ∧ ∀ x, x ∈ final ↔ x ∈ l.

(** * Properties *)

(** ** Strings *)

Section StringFacts.

Lemma lower_char_idem c : Str.lower_char (Str.lower_char c) = Str.lower_char c.
Proof. destruct c as [[] [] [] [] [] [] [] []]; reflexivity. Qed.

Lemma lowercase_all_chars s : Str.all_chars is_low s = true ↔ lowercase s.
Proof.
  unfold lowercase. induction s as [|c s IH]; simpl; [done|].
  rewrite andb_true_iff, IH. unfold is_low.
  split.
  - intros [Hc ->]. apply Ascii.eqb_eq in Hc. by rewrite Hc.
  - intros [= Hc Hs]. rewrite Hc, Hs. split; [apply Ascii.eqb_refl|done].
Qed.

Lemma lower_is_low s : Str.all_chars is_low (Str.lower s) = true.
Proof.
  induction s as [|c s IH]; simpl; [done|].
  rewrite IH, andb_true_r. unfold is_low.
  rewrite lower_char_idem. apply Ascii.eqb_refl.
Qed.

Lemma lower_lowercase s : lowercase (Str.lower s).
Proof. apply lowercase_all_chars, lower_is_low. Qed.

Variable P : ascii → bool.

Lemma all_chars_app s t :
  Str.all_chars P (s +:+ t) = Str.all_chars P s && Str.all_chars P t.
Proof. induction s as [|c s IH]; simpl; [done|]. by rewrite IH, andb_assoc. Qed.

Lemma all_chars_lstrip s :
  Str.all_chars P s = true → Str.all_chars P (Str.lstrip s) = true.
Proof.
  induction s as [|c s IH]; simpl; [done|].
  intros [Hc Hs]%andb_true_iff. destruct (Str.isspace c); [auto|].
  simpl. by rewrite Hc, Hs.
Qed.

Lemma all_chars_rstrip s :
  Str.all_chars P s = true → Str.all_chars P (Str.rstrip s) = true.
Proof.
  induction s as [|c s IH]; simpl; [done|].
  intros [Hc Hs]%andb_true_iff.
  destruct (Str.is_empty (Str.rstrip s) && Str.isspace c); [done|].
  simpl. by rewrite Hc, IH.
Qed.

Lemma all_chars_strip s :
  Str.all_chars P s = true → Str.all_chars P (Str.strip s) = true.
Proof. intros. by apply all_chars_rstrip, all_chars_lstrip. Qed.

Lemma all_chars_split_go s cur :
  Str.all_chars P s = true → Str.all_chars P cur = true →
  Forall (fun w => Str.all_chars P w = true) (Str.split_go s cur).
Proof.
  revert cur. induction s as [|c s IH]; simpl; intros cur Hs Hcur.
  - destruct (Str.is_empty cur); auto.
  - apply andb_true_iff in Hs as [Hc Hs].
    destruct (Str.isspace c).
    + destruct (Str.is_empty cur); [by apply IH|].
      constructor; [done|by apply IH].
    + apply IH; [done|]. rewrite all_chars_app, Hcur. simpl. by rewrite Hc.
Qed.

Lemma all_chars_join sep parts :
  Str.all_chars P sep = true →
  Forall (fun w => Str.all_chars P w = true) parts →
  Str.all_chars P (Str.join sep parts) = true.
Proof.
  intros Hsep. induction 1 as [|p ps Hp Hps IH]; [done|].
  destruct ps as [|p' ps]; [done|].
  change (Str.join sep (p :: p' :: ps))
    with (p +:+ sep +:+ Str.join sep (p' :: ps)).
  by rewrite !all_chars_app, Hp, Hsep, IH.
Qed.

End StringFacts.

(** ** The sort *)

Section SortFacts.

Context {A : Type} (key : A → Z).

Lemma insert_by_key_perm x l : insert_by_key key x l ≡ₚ x :: l.
Proof.
  induction l as [|y l IH]; simpl; [done|].
  destruct (key x <=? key y)%Z; [done|].
  rewrite IH. apply Permutation_swap.
Qed.

Lemma sort_by_key_perm l : sort_by_key key l ≡ₚ l.
Proof.
  induction l as [|x l IH]; simpl; [done|].
  by rewrite insert_by_key_perm, IH.
Qed.

(** Stability: the elements of any one key keep their order. *)
Lemma filter_insert_by_key k x l :
  filter (fun y => key y = k) (insert_by_key key x l)
  = filter (fun y => key y = k) (x :: l).
Proof.
  induction l as [|y l IH]; simpl; [done|].
  destruct (key x <=? key y)%Z eqn:Hle; [done|].
  apply Z.leb_gt in Hle.
  rewrite filter_cons, IH, !filter_cons.
  repeat case_decide; try done; lia.
Qed.

Lemma filter_sort_by_key k l :
  filter (fun y => key y = k) (sort_by_key key l)
  = filter (fun y => key y = k) l.
Proof.
  induction l as [|x l IH]; simpl; [done|].
  by rewrite filter_insert_by_key, !filter_cons, IH.
Qed.

Lemma insert_by_key_sorted x l :
  Sorted (fun a b => (key a ≤ key b)%Z) l →
  Sorted (fun a b => (key a ≤ key b)%Z) (insert_by_key key x l).
Proof.
  induction 1 as [|y l Hl IH Hhd]; simpl; [by repeat constructor|].
  destruct (key x <=? key y)%Z eqn:Hle.
  - apply Z.leb_le in Hle. by repeat constructor.
  - apply Z.leb_gt in Hle. constructor; [done|].
    destruct Hhd as [|z l Hz]; simpl.
    + constructor. lia.
    + destruct (key x <=? key z)%Z; constructor; [lia|done].
Qed.

Lemma sort_by_key_sorted l :
  Sorted (fun a b => (key a ≤ key b)%Z) (sort_by_key key l).
Proof.
  induction l; simpl; [constructor|by apply insert_by_key_sorted].
Qed.

End SortFacts.


(** ** The ranker *)

Section RankerFacts.

Lemma ingredient_mappings_lowercase k v :
  ingredient_mappings !! k = Some v → Str.all_chars is_low v = true.
Proof.
  intros H. apply elem_of_list_to_map_2 in H.
  repeat (apply elem_of_cons in H as [[= -> ->]|H]; [reflexivity|]).
  by apply elem_of_nil in H.
Qed.

Lemma normalize_is_low name :
  Str.all_chars is_low (_normalize_ingredient_name name) = true.
Proof.
  unfold _normalize_ingredient_name.
  set (clean := Str.strip _).
  assert (Str.all_chars is_low clean = true) as Hclean.
  { apply all_chars_strip, all_chars_join; [done|].
    apply Forall_forall. intros w [_ Hw]%list_elem_of_filter. revert w Hw.
    apply Forall_forall, all_chars_split_go; [apply lower_is_low|done]. }
  destruct (ingredient_mappings !! clean) as [v|] eqn:Hv; simpl; [|done].
  by eapply ingredient_mappings_lowercase.
Qed.

Lemma normalize_lowercase name : lowercase (_normalize_ingredient_name name).
Proof. apply lowercase_all_chars, normalize_is_low. Qed.

Lemma valid_length name category :
  _is_valid_ingredient name category = true → 2 ≤ String.length name.
Proof.
  unfold _is_valid_ingredient.
  destruct (String.length name <? 2) eqn:Hlen; [done|].
  apply Nat.ltb_ge in Hlen. done.
Qed.

Lemma valid_food name category :
  _is_valid_ingredient name category = true →
  category ∈ food_categories
  ∨ ∃ w, w ∈ food_words ∧ Str.contains w name = true.
Proof.
  unfold _is_valid_ingredient.
  destruct (String.length name <? 2); [done|].
  destruct (bool_decide (name ∈ invalid_terms)); [done|].
  intros [H|H]%orb_true_iff.
  - left. by apply bool_decide_eq_true in H.
  - right. apply existsb_exists in H as (w & Hw & Hc).
    exists w. split; [by apply list_elem_of_In|done].
Qed.

Lemma candidate_Some d x :
  candidate d = Some x →
  2 ≤ String.length x ∧ lowercase x ∧ originates Str.lower x d.
Proof.
  unfold candidate, originates.
  destruct (dict_get d "name" (VStr "")) as [| | | |name| |] eqn:Hn; try done.
  destruct (dict_get d "category" (VStr "other")) as [| | | |cat| |] eqn:Hc;
    try done.
  destruct (Str.is_empty _); [done|].
  destruct (_is_valid_ingredient _ _) eqn:Hv; [|done].
  intros [= <-]. split_and!.
  - by eapply valid_length.
  - apply normalize_lowercase.
  - exists name, cat. split_and!; try done. by apply valid_food.
Qed.

Lemma candidates_Forall ds :
  Forall (fun x => 2 ≤ String.length x ∧ lowercase x
                   ∧ ∃ d, d ∈ ds ∧ originates Str.lower x d)
         (candidates ds).
Proof.
  apply Forall_forall. intros x Hx.
  apply list_elem_of_omap in Hx as (d & Hd & Hc).
  destruct (candidate_Some _ _ Hc) as (? & ? & ?). eauto.
Qed.

(** On a detection with string fields a loop turn does not raise, and
    appends the candidate name unless it was seen. *)
Lemma suggestion_step_spec ings seen d :
  str_fields d = true →
  suggestion_step (ings, seen) d
  = Ok (match candidate d with
        | Some x =>
            if decide (x ∈ seen) then (ings, seen)
            else (ings ++ [x], seen ∪ {[ x ]})
        | None => (ings, seen)
        end).
Proof.
  unfold str_fields, suggestion_step, candidate.
  destruct (dict_get d "name" (VStr "")) as [| | | |name| |]; try done.
  destruct (dict_get d "category" (VStr "other")) as [| | | |cat| |];
    try done.
  intros _. simpl.
  destruct (Str.is_empty _); [done|].
  destruct (_is_valid_ingredient _ _); [|done].
  rewrite bool_decide_decide.
  destruct (decide (_ ∉ seen)), (decide (_ ∈ seen)); done.
Qed.


Lemma dedup_into_spec l acc :
  dedup_into acc l = acc ++ filter (fun y => y ∉ acc) (dedup_first l).
Proof.
  revert acc. induction l as [|x l IH]; intros acc; simpl.
  - by rewrite app_nil_r.
  - change (dedup_into acc (x :: l))
      with (dedup_into (if decide (x ∈ acc) then acc else acc ++ [x]) l).
    rewrite IH, filter_cons, list_filter_filter.
    destruct (decide (x ∈ acc)) as [Hin|Hnin].
    + rewrite decide_False by tauto. f_equal.
      apply list_filter_iff. intros y. split; [|tauto].
      intros Hy. split; [done|]. by intros ->.
    + rewrite decide_True by done. rewrite <- app_assoc. simpl. do 2 f_equal.
      apply list_filter_iff. intros y.
      rewrite elem_of_app, list_elem_of_singleton. tauto.
Qed.

Lemma dedup_into_nil l : dedup_into [] l = dedup_first l.
Proof.
  rewrite dedup_into_spec. simpl.
  induction (dedup_first l) as [|y k IH]; [done|].
  rewrite filter_cons_True by apply not_elem_of_nil. by rewrite IH.
Qed.

Lemma elem_of_dedup_first x l : x ∈ dedup_first l ↔ x ∈ l.
Proof.
  induction l as [|y l IH]; simpl; [done|].
  rewrite !elem_of_cons, list_elem_of_filter, IH.
  destruct (decide (x = y)); tauto.
Qed.

Lemma NoDup_dedup_first l : NoDup (dedup_first l).
Proof.
  induction l as [|x l IH]; simpl; [constructor|].
  constructor; [|by apply NoDup_filter].
  rewrite list_elem_of_filter. tauto.
Qed.

(** In the deduplicated list, names stand in the order of their first
    occurrences. *)
Lemma dedup_first_order a b l :
  [a; b] `sublist_of` dedup_first l → index_of a l < index_of b l.
Proof.
  induction l as [|x l IH]; simpl.
  - intros H. by apply sublist_nil_r in H.
  - intros [H|(k & [= <- <-] & H)]%sublist_cons_r.
    + assert ([a; b] `sublist_of` dedup_first l) as H'
        by (etrans; [done|apply sublist_filter]).
      assert (a ≠ x ∧ b ≠ x) as [??].
      { split.
        - assert (a ∈ filter (fun y => y ≠ x) (dedup_first l)) as Ha
            by (eapply elem_of_sublist; [|done]; set_solver).
          apply list_elem_of_filter in Ha. tauto.
        - assert (b ∈ filter (fun y => y ≠ x) (dedup_first l)) as Hb
            by (eapply elem_of_sublist; [|done]; set_solver).
          apply list_elem_of_filter in Hb. tauto. }
      rewrite !decide_False by done. apply IH in H'. lia.
    + assert (b ∈ filter (fun y => y ≠ a) (dedup_first l)) as Hb
        by (eapply elem_of_sublist; [|done]; set_solver).
      apply list_elem_of_filter in Hb as [Hb _].
      rewrite decide_True by done. rewrite decide_False by done. lia.
Qed.

Lemma lookup_lt_sublist {A} (l : list A) i j a b :
  l !! i = Some a → l !! j = Some b → i < j → [a; b] `sublist_of` l.
Proof.
  revert i j. induction l as [|x l IH]; intros i j Hi Hj Hlt; [done|].
  destruct j as [|j]; [lia|]. simpl in Hj. destruct i as [|i].
  - injection Hi as ->. apply sublist_skip, singleton_sublist_l.
    by eapply list_elem_of_lookup_2.
  - apply sublist_cons. eapply IH; [done..|lia].
Qed.

Lemma sublist_pair_filter {A} (P : A → Prop) `{!∀ x, Decision (P x)}
    (l : list A) a b :
  P a → P b → [a; b] `sublist_of` l → [a; b] `sublist_of` filter P l.
Proof.
  intros Ha Hb. revert a b Ha Hb.
  induction l as [|x l IH]; intros a b Ha Hb Hsub.
  - by apply sublist_nil_r in Hsub.
  - rewrite filter_cons.
    apply sublist_cons_r in Hsub as [H'|(k & [= -> <-] & H')].
    + destruct (decide (P x)); [apply sublist_cons|]; by apply IH.
    + rewrite decide_True by done. apply sublist_skip.
      apply singleton_sublist_l, list_elem_of_filter. split; [done|].
      by apply singleton_sublist_l.
Qed.

Lemma for_each_suggestion ds : ∀ ings seen,
  Forall (fun d => str_fields d = true) ds →
  (∀ x, x ∈ seen ↔ x ∈ ings) →
  ∃ seen',
    for_each suggestion_step ds (ings, seen)
    = Ok (dedup_into ings (candidates ds), seen').
Proof.
  induction ds as [|d ds IH]; intros ings seen Hds Hseen.
  - by exists seen.
  - apply Forall_cons in Hds as [Hd Hds].
    change (for_each suggestion_step (d :: ds) (ings, seen))
      with (Py.bind (suggestion_step (ings, seen) d)
                    (for_each suggestion_step ds)).
    rewrite suggestion_step_spec by done.
    change (candidates (d :: ds))
      with (match candidate d with
            | Some x => x :: candidates ds
            | None => candidates ds
            end).
    unfold Py.bind.
    destruct (candidate d) as [x|]; simpl; [|by apply IH].
    destruct (decide (x ∈ seen)) as [Hin|Hnin].
    + rewrite decide_True by (by apply Hseen). by apply IH.
    + rewrite decide_False by (by rewrite <- Hseen). apply IH; [done|].
      intros y. rewrite elem_of_union, elem_of_singleton, elem_of_app,
                        list_elem_of_singleton, Hseen. done.
Qed.

Lemma collect_ingredients_spec ds :
  Forall (fun d => str_fields d = true) ds →
  collect_ingredients ds = Ok (dedup_first (candidates ds)).
Proof.
  intros Hds. unfold collect_ingredients.
  destruct (for_each_suggestion ds [] ∅ Hds) as [seen' ->]; [set_solver|].
  simpl. by rewrite dedup_into_nil.
Qed.

Lemma get_ingredient_suggestions_spec ds :
  Forall (fun d => str_fields d = true) ds →
  get_ingredient_suggestions ds
  = Ok (take 15 (sort_by_key _get_ingredient_priority
                   (dedup_first (candidates ds)))).
Proof.
  intros Hds. unfold get_ingredient_suggestions.
  rewrite collect_ingredients_spec by done. by destruct ds.
Qed.

End RankerFacts.


Section RankerClaims.

Implicit Types ds : list dict.

Lemma dedup_first_NoDup l : NoDup l → dedup_first l = l.
Proof.
  induction 1 as [|x l Hx Hl IH]; simpl; [done|].
  rewrite IH. f_equal. clear IH Hl.
  induction l as [|y l IH]; [done|].
  apply not_elem_of_cons in Hx as [??].
  rewrite filter_cons_True by done. by rewrite IH.
Qed.

(** Two names of one tier that follow each other in the output follow each
    other in the list that was sorted. *)
Lemma same_tier_order (l : list string) i j a b :
  take 15 (sort_by_key _get_ingredient_priority l) !! i = Some a →
  take 15 (sort_by_key _get_ingredient_priority l) !! j = Some b →
  _get_ingredient_priority a = _get_ingredient_priority b →
  i < j → [a; b] `sublist_of` l.
Proof.
  intros Hi Hj Hp Hlt.
  pose proof (lookup_lt_sublist _ _ _ _ _ Hi Hj Hlt) as H.
  assert ([a; b] `sublist_of` sort_by_key _get_ingredient_priority l) as H'
    by (etrans; [done|apply sublist_take]).
  apply (sublist_pair_filter
           (fun y => _get_ingredient_priority y = _get_ingredient_priority a))
    in H'; [|done..].
  rewrite filter_sort_by_key in H'.
  etrans; [done|apply sublist_filter].
Qed.

(** C5: on every detection list (names and categories strings, as in a
    Detection) the ranker returns at most 15 names, no two of them equal,
    also when compared case-insensitively. *)
Theorem ranker_at_most_15_distinct ds :
  Forall (fun d => str_fields d = true) ds →
  ∃ out,
    get_ingredient_suggestions ds = Ok out
    ∧ length out ≤ 15
    ∧ NoDup out
    ∧ NoDup (Str.lower <$> out).
Proof.
  intros Hds. eexists. split; [by apply get_ingredient_suggestions_spec|].
  set (srt := sort_by_key _ _).
  assert (NoDup (take 15 srt)) as Hnd.
  { eapply sublist_NoDup; [|apply sublist_take].
    unfold srt. rewrite sort_by_key_perm. apply NoDup_dedup_first. }
  split_and!; [rewrite length_take; lia|done|].
  replace (Str.lower <$> take 15 srt) with (take 15 srt); [done|].
  symmetry. rewrite <- (list_fmap_id (take 15 srt)) at 2.
  apply list_fmap_ext. intros i x Hx. simpl.
  assert (x ∈ candidates ds) as Hc.
  { apply elem_of_dedup_first. rewrite <- (sort_by_key_perm _get_ingredient_priority).
    eapply elem_of_sublist; [|apply sublist_take].
    by eapply list_elem_of_lookup_2. }
  pose proof (candidates_Forall ds) as HF.
  rewrite Forall_forall in HF. by destruct (HF x Hc) as (_ & ? & _).
Qed.

(** C6: the tier sort is stable.  Two output names of the same tier stand
    in the output in the order in which they stand in the deduplicated
    list, which is the order of their first occurrences among the
    candidate names of the input. *)
Theorem ranker_sort_stable ds :
  Forall (fun d => str_fields d = true) ds →
  ∃ out dedup,
    get_ingredient_suggestions ds = Ok out
    ∧ collect_ingredients ds = Ok dedup
    ∧ ∀ i j a b,
        out !! i = Some a → out !! j = Some b →
        _get_ingredient_priority a = _get_ingredient_priority b →
        (i < j ↔ index_of a dedup < index_of b dedup)
        ∧ (i < j ↔ index_of a (candidates ds) < index_of b (candidates ds)).
Proof.
  intros Hds. eexists _, _.
  split; [by apply get_ingredient_suggestions_spec|].
  split; [by apply collect_ingredients_spec|].
  set (dedup := dedup_first (candidates ds)).
  assert (∀ i j a b,
    take 15 (sort_by_key _get_ingredient_priority dedup) !! i = Some a →
    take 15 (sort_by_key _get_ingredient_priority dedup) !! j = Some b →
    _get_ingredient_priority a = _get_ingredient_priority b → i < j →
    index_of a dedup < index_of b dedup
    ∧ index_of a (candidates ds) < index_of b (candidates ds)) as Hfwd.
  { intros i j a b Hi Hj Hp Hlt.
    pose proof (same_tier_order _ _ _ _ _ Hi Hj Hp Hlt) as Hsub.
    split; [|by apply dedup_first_order].
    apply dedup_first_order.
    by rewrite (dedup_first_NoDup dedup) by apply NoDup_dedup_first. }
  intros i j a b Hi Hj Hp.
  assert (i < j ∨ i = j ∨ j < i) as [Hlt|[->|Hgt]] by lia.
  - destruct (Hfwd _ _ _ _ Hi Hj Hp Hlt). split; split; done.
  - assert (a = b) as -> by congruence. split; split; lia.
  - destruct (Hfwd _ _ _ _ Hj Hi (eq_sym Hp) Hgt). split; split; lia.
Qed.

(** C7 (amended): every output name has length at least 2, is lowercase,
    and comes from a detection whose lowercased category is in the food
    allowlist or whose normalised name contains a food substring. *)
Theorem ranker_output_names ds :
  Forall (fun d => str_fields d = true) ds →
  ∃ out,
    get_ingredient_suggestions ds = Ok out
    ∧ ∀ x, x ∈ out →
        2 ≤ String.length x ∧ lowercase x
        ∧ ∃ d, d ∈ ds ∧ originates Str.lower x d.
Proof.
  intros Hds. eexists. split; [by apply get_ingredient_suggestions_spec|].
  intros x Hx.
  assert (x ∈ candidates ds) as Hc.
  { apply elem_of_dedup_first. rewrite <- (sort_by_key_perm _get_ingredient_priority).
    eapply elem_of_sublist; [done|apply sublist_take]. }
  pose proof (candidates_Forall ds) as HF.
  rewrite Forall_forall in HF. by apply HF.
Qed.

End RankerClaims.


(** ** Locating the bracketed substring *)

Section BracketFacts.

Lemma append_cons c (s t : string) : String c s +:+ t = String c (s +:+ t).
Proof. reflexivity. Qed.

Lemma append_nil_l (t : string) : "" +:+ t = t.
Proof. reflexivity. Qed.

Lemma append_assoc (s t u : string) : (s +:+ t) +:+ u = s +:+ t +:+ u.
Proof.
  induction s as [|c s IH]; [done|]. by rewrite !append_cons, IH.
Qed.

Lemma length_append (s t : string) :
  String.length (s +:+ t) = String.length s + String.length t.
Proof.
  induction s as [|c s IH]; [done|]. rewrite append_cons. simpl.
  by rewrite IH.
Qed.

Lemma find_ge c s : (-1 ≤ Str.find c s)%Z.
Proof.
  induction s as [|a s IH]; simpl; [lia|].
  destruct (Ascii.eqb a c); [lia|].
  destruct (Str.find c s =? -1)%Z; lia.
Qed.

Lemma rfind_ge c s : (-1 ≤ Str.rfind c s)%Z.
Proof.
  induction s as [|a s IH]; simpl; [lia|].
  destruct (Str.rfind c s =? -1)%Z; [|lia].
  destruct (Ascii.eqb a c); lia.
Qed.

(** [find] returns the position of the first occurrence. *)
Lemma find_first c pre rest :
  Str.find c pre = (-1)%Z →
  Str.find c (pre +:+ String c rest) = Z.of_nat (String.length pre).
Proof.
  induction pre as [|a pre IH]; rewrite ?append_cons, ?append_nil_l; simpl.
  - intros _. by rewrite Ascii.eqb_refl.
  - destruct (Ascii.eqb a c); [done|].
    pose proof (find_ge c pre).
    destruct (Str.find c pre =? -1)%Z eqn:Hr; [|lia].
    apply Z.eqb_eq in Hr. intros _. rewrite IH by done.
    destruct (Z.of_nat (String.length pre) =? -1)%Z eqn:Hn; lia.
Qed.

(** [rfind] returns the position of the last occurrence. *)
Lemma rfind_last c pre post :
  Str.rfind c post = (-1)%Z →
  Str.rfind c (pre +:+ String c post) = Z.of_nat (String.length pre).
Proof.
  intros Hpost.
  induction pre as [|a pre IH]; rewrite ?append_cons, ?append_nil_l; simpl.
  - by rewrite Hpost, Ascii.eqb_refl.
  - rewrite IH.
    destruct (Z.of_nat (String.length pre) =? -1)%Z eqn:Hn; lia.
Qed.

Lemma substring_zero n s : String.substring n 0 s = "".
Proof. revert s. induction n as [|n IH]; intros [|c s]; simpl; auto. Qed.

Lemma substring_prefix m post :
  String.substring 0 (String.length m) (m +:+ post) = m.
Proof.
  induction m as [|c m IH]; rewrite ?append_cons, ?append_nil_l; simpl;
    [by destruct post|]. by rewrite IH.
Qed.

Lemma substring_middle pre m post :
  String.substring (String.length pre) (String.length m)
    (pre +:+ m +:+ post) = m.
Proof.
  induction pre as [|c pre IH]; rewrite ?append_cons, ?append_nil_l; simpl;
    [apply substring_prefix|done].
Qed.

Lemma slice_middle pre m post :
  Str.slice (pre +:+ m +:+ post)
    (Z.of_nat (String.length pre))
    (Z.of_nat (String.length pre) + Z.of_nat (String.length m)) = m.
Proof.
  unfold Str.slice. rewrite !length_append.
  set (a := String.length pre). set (b := String.length m).
  set (c := String.length post).
  destruct (Z.of_nat a <? 0)%Z eqn:Ha; [lia|].
  destruct (Z.of_nat a + Z.of_nat b <? 0)%Z eqn:Hb; [lia|].
  replace (Z.to_nat (0 `max` (Z.of_nat (a + (b + c)) `min` Z.of_nat a)))
    with a by lia.
  replace (Z.to_nat _) with b by lia.
  apply substring_middle.
Qed.

(** A slice that ends at 0 is empty. *)
Lemma slice_to_zero s a : (0 ≤ a)%Z → Str.slice s a 0 = "".
Proof.
  intros Ha. unfold Str.slice.
  assert (∀ n lo : Z, (0 ≤ n)%Z → (0 ≤ lo)%Z →
    Z.to_nat (Z.max 0 (Z.min n (if (0 <? 0)%Z then 0 + n else 0)) - lo) = 0)
    as Hz by (intros; simpl; lia).
  rewrite Hz by lia. apply substring_zero.
Qed.

(** In a text [pre [ mid ] post] with no ['['] in [pre] and no [']'] in
    [post], the slice from the first ['['] to one past the last [']'] is
    [[ mid ]]. *)
Lemma bracket_slice pre mid post :
  let s := pre +:+ "[" +:+ mid +:+ "]" +:+ post in
  Str.find "[" pre = (-1)%Z → Str.rfind "]" post = (-1)%Z →
  Str.find "[" s ≠ (-1)%Z
  ∧ Str.slice s (Str.find "[" s) (Str.rfind "]" s + 1)
    = "[" +:+ mid +:+ "]".
Proof.
  intros s Hpre Hpost. unfold s.
  change ("[" +:+ mid +:+ "]" +:+ post)
    with (String "[" (mid +:+ String "]" post)).
  rewrite find_first by done. split; [lia|].
  replace (pre +:+ String "[" (mid +:+ String "]" post))
    with ((pre +:+ "[" +:+ mid) +:+ String "]" post)
    by (by rewrite !append_assoc).
  rewrite rfind_last by done.
  replace ((pre +:+ "[" +:+ mid) +:+ String "]" post)
    with (pre +:+ ("[" +:+ mid +:+ "]") +:+ post)
    by (by rewrite !append_assoc).
  etrans; [|apply (slice_middle pre ("[" +:+ mid +:+ "]") post)].
  f_equal. rewrite !length_append. simpl. lia.
Qed.

End BracketFacts.


(** ** The normaliser and the confidence filter *)

Section NormalizerClaims.

Variable json_loads : string → result pyval.
Variable float_of_str : string → result float.

Local Abbreviation parse := (_parse_vision_response json_loads float_of_str).
Local Abbreviation to_float := (py_float float_of_str).
Local Abbreviation step := (normalize_detection float_of_str).

Lemma for_each_cons {S A} (body : S → A → result S) x xs st :
  for_each body (x :: xs) st = Py.bind (body st x) (for_each body xs).
Proof. reflexivity. Qed.

(** An element without a name leaves the list as it is. *)
Lemma step_unnamed acc v : has_name v = false → step acc v = Ok acc.
Proof.
  destruct v as [| | | | | |d]; simpl; try done. by intros ->.
Qed.

(** A named element with an acceptable confidence appends its record. *)
Lemma step_named acc v :
  has_name v = true → convertible to_float v →
  ∃ r, step acc v = Ok (acc ++ [r]) ∧ coerced to_float v r.
Proof.
  destruct v as [| | | | | |d]; simpl; try done.
  intros Hn Hc. rewrite Hn. unfold dict_contains in Hn.
  destruct (dict_lookup d "name") as [name|] eqn:Hname; [|done].
  assert (∃ conf,
    to_float (dict_get d "confidence" (VFloat float_half)) = Ok conf
    ∧ match dict_lookup d "confidence" with
      | None => conf = float_half
      | Some c => to_float c = Ok conf
      end) as (conf & Hconf & Hspec).
  { unfold dict_get. destruct (dict_lookup d "confidence") as [c|].
    - destruct (to_float c) as [f|]; [|done]. by exists f.
    - by exists float_half. }
  rewrite Hconf. eexists. split; [reflexivity|].
  exists d, name, conf. eexists _, _. unfold dict_get. rewrite Hname.
  split_and!; [done..|reflexivity|reflexivity].
Qed.

(** A named element whose confidence is rejected raises. *)
Lemma step_rejected acc v :
  has_name v = true → ¬ convertible to_float v →
  is_ok (step acc v) = false.
Proof.
  destruct v as [| | | | | |d]; simpl; try done.
  intros -> Hc. unfold dict_get.
  destruct (dict_lookup d "confidence") as [c|]; [|done].
  by destruct (to_float c).
Qed.

Lemma normalize_loop_ok arr : ∀ acc,
  Forall (convertible to_float) (filter (fun v => has_name v = true) arr) →
  ∃ rs,
    for_each step arr acc = Ok (acc ++ rs)
    ∧ Forall2 (coerced to_float) (filter (fun v => has_name v = true) arr) rs.
Proof.
  induction arr as [|v arr IH]; intros acc Hconv.
  - exists []. by rewrite app_nil_r.
  - rewrite for_each_cons, filter_cons in *.
    destruct (decide (has_name v = true)) as [Hn|Hn].
    + apply Forall_cons in Hconv as [Hv Hconv].
      destruct (step_named acc v Hn Hv) as (r & -> & Hr).
      destruct (IH (acc ++ [r]) Hconv) as (rs & Hrs & HF).
      exists (r :: rs). simpl. rewrite Hrs, <- app_assoc.
      split; [done|by constructor].
    + rewrite step_unnamed by (by destruct (has_name v)). by apply IH.
Qed.

Lemma normalize_loop_rejected arr : ∀ acc,
  Exists (fun v => has_name v = true ∧ ¬ convertible to_float v) arr →
  is_ok (for_each step arr acc) = false.
Proof.
  induction arr as [|v arr IH]; intros acc Hex; [by apply Exists_nil in Hex|].
  rewrite for_each_cons.
  destruct (step acc v) as [acc'|e] eqn:Hstep; [|done]. simpl.
  apply Exists_cons in Hex as [[Hn Hc]|Hex]; [|by apply IH].
  pose proof (step_rejected acc v Hn Hc) as Hr. by rewrite Hstep in Hr.
Qed.

Lemma parse_total content : ∃ l, parse content = Ok l.
Proof.
  unfold _parse_vision_response, _parse_text_response.
  destruct (parse_vision_body _ _ _) as [l|e]; [by exists l|].
  exists []. by destruct (exn_cls e).
Qed.

Lemma parse_body_raise content :
  is_ok (parse_vision_body json_loads float_of_str content) = false →
  parse content = Ok [].
Proof.
  unfold _parse_vision_response, _parse_text_response.
  destruct (parse_vision_body _ _ _) as [l|e]; [done|].
  by destruct (exn_cls e).
Qed.

(** C2 (amended): in a text [pre [ mid ] post] whose first ['['] and last
    [']'] are the ones shown, the bracketed substring is given to
    [json.loads]; when that yields an array in which every element with a
    ['name'] has a confidence that is missing or accepted by [float], the
    elements that are not dicts with a ['name'] are dropped and every other
    element becomes its record, in order; when [float] rejects the confidence
    of a named element the result is the empty list. *)
Theorem parse_vision_response_coerces pre mid post arr :
  Str.find "[" pre = (-1)%Z → Str.rfind "]" post = (-1)%Z →
  json_loads ("[" +:+ mid +:+ "]") = Ok (VList arr) →
  let named := filter (fun v => has_name v = true) arr in
  (Forall (convertible to_float) named →
   ∃ rs, parse (VStr (pre +:+ "[" +:+ mid +:+ "]" +:+ post)) = Ok rs
         ∧ Forall2 (coerced to_float) named rs)
  ∧ (¬ Forall (convertible to_float) named →
     parse (VStr (pre +:+ "[" +:+ mid +:+ "]" +:+ post)) = Ok []).
Proof.
  intros Hpre Hpost Hloads named.
  destruct (bracket_slice pre mid post Hpre Hpost) as [Hstart Hslice].
  assert (parse_vision_body json_loads float_of_str
            (VStr (pre +:+ "[" +:+ mid +:+ "]" +:+ post))
          = for_each step arr []) as Hbody.
  { unfold parse_vision_body. simpl.
    apply Z.eqb_neq in Hstart. rewrite Hstart. simpl.
    pose proof (rfind_ge "]" (pre +:+ "[" +:+ mid +:+ "]" +:+ post)).
    destruct (_ + 1 =? -1)%Z eqn:Hend; [lia|]. simpl.
    by rewrite Hslice, Hloads. }
  split.
  - intros Hconv.
    destruct (normalize_loop_ok arr [] Hconv) as (rs & Hrs & HF).
    exists rs. split; [|done].
    unfold _parse_vision_response. by rewrite Hbody, Hrs.
  - intros Hbad. apply parse_body_raise. rewrite Hbody.
    apply normalize_loop_rejected.
    apply not_Forall_Exists in Hbad.
    2:{ intros v. unfold convertible. destruct v as [| | | | | |d]; try apply _.
        destruct (dict_lookup d "confidence"); apply _. }
    apply Exists_exists in Hbad as (v & Hv & Hc).
    apply list_elem_of_filter in Hv as [Hn Hv].
    apply Exists_exists. eauto.
Qed.

(** C3: the normaliser never raises: on every content it returns a list,
    and the list is empty when the text has no ['['], when [json.loads]
    fails on the extracted substring, and when the text has no [']'] (the
    extracted substring is then empty, which [json.loads] rejects). *)
Theorem parse_vision_response_never_raises (content : pyval) :
  ∃ l,
    parse content = Ok l
    ∧ ∀ s, content = VStr s →
        let json_str :=
          Str.slice s (Str.find "[" s) (Str.rfind "]" s + 1) in
        (Str.find "[" s = (-1)%Z → l = [])
        ∧ (is_ok (json_loads json_str) = false → l = [])
        ∧ (Str.rfind "]" s = (-1)%Z →
           is_ok (json_loads "") = false → l = []).
Proof.
  destruct (parse_total content) as [l Hl]. exists l. split; [done|].
  intros s -> json_str.
  assert (is_ok (json_loads json_str) = false → l = []) as Hfail.
  { intros Hj. unfold _parse_vision_response, parse_vision_body in Hl.
    simpl in Hl. fold json_str in Hl.
    destruct (negb _ && negb _); [|by injection Hl].
    destruct (json_loads json_str) as [v|e]; [done|]. simpl in Hl.
    destruct (exn_cls e); by injection Hl. }
  split_and!; [|done|].
  - intros Hno. unfold _parse_vision_response, parse_vision_body in Hl.
    simpl in Hl. rewrite Hno in Hl. simpl in Hl. by injection Hl.
  - intros Hno Hempty. destruct (decide (Str.find "[" s = (-1)%Z)) as [Hs|Hs].
    + unfold _parse_vision_response, parse_vision_body in Hl.
      simpl in Hl. rewrite Hs in Hl. simpl in Hl. by injection Hl.
    + apply Hfail. unfold json_str. rewrite Hno. simpl.
      pose proof (find_ge "[" s). by rewrite slice_to_zero by lia.
Qed.

End NormalizerClaims.


Section FilterClaims.

Variable json_loads : string → result pyval.
Variable float_of_str : string → result float.

Local Abbreviation parse := (_parse_vision_response json_loads float_of_str).
Local Abbreviation step := (normalize_detection float_of_str).

Lemma filter_loop thr ds : ∀ acc,
  Forall (fun d => numeric_confidence d = true) ds →
  for_each
    (fun (kept : list dict) (detection : dict) =>
       keep ← py_ge_float (dict_get detection "confidence" (VInt 0)) thr;
       Ok (if (keep : bool) then kept ++ [detection] else kept)) ds acc
  = Ok (acc ++ filter (fun d => meets_threshold thr d = true) ds).
Proof.
  induction ds as [|d ds IH]; intros acc Hds.
  - by rewrite app_nil_r.
  - apply Forall_cons in Hds as [Hd Hds].
    rewrite for_each_cons, filter_cons.
    unfold numeric_confidence, meets_threshold in *.
    destruct (dict_get d "confidence" (VInt 0)) as [|b|n|f| | |];
      try done; simpl; rewrite IH by done;
      (case_decide as Hm; [rewrite Hm, <- app_assoc|
                           apply not_true_is_false in Hm; rewrite Hm]; done).
Qed.

Lemma confidence_filter_eq thr ds :
  Forall (fun d => numeric_confidence d = true) ds →
  confidence_filter thr ds
  = Ok (filter (fun d => meets_threshold thr d = true) ds).
Proof. intros Hds. by apply (filter_loop thr ds []). Qed.

(** C4: the confidence filter keeps exactly the detections whose confidence
    (0 when missing) is at least the threshold, in their order, whatever
    the threshold. *)
Theorem confidence_filter_exact (thr : float) (ds : list dict) :
  Forall (fun d => numeric_confidence d = true) ds →
  ∃ out,
    confidence_filter thr ds = Ok out
    ∧ out = filter (fun d => meets_threshold thr d = true) ds
    ∧ out `sublist_of` ds
    ∧ ∀ d, d ∈ out ↔ d ∈ ds ∧ meets_threshold thr d = true.
Proof.
  intros Hds. eexists. split; [by apply confidence_filter_eq|].
  split_and!; [done|apply sublist_filter|].
  intros d. rewrite list_elem_of_filter. tauto.
Qed.

(** The records the normaliser builds carry a float confidence. *)
Lemma normalize_loop_numeric arr : ∀ acc rs,
  for_each step arr acc = Ok rs →
  Forall (fun d => numeric_confidence d = true) acc →
  Forall (fun d => numeric_confidence d = true) rs.
Proof.
  induction arr as [|v arr IH]; intros acc rs Hrs Hacc.
  - by injection Hrs as <-.
  - rewrite for_each_cons in Hrs.
    destruct (step acc v) as [acc'|e] eqn:Hstep; [|done].
    apply (IH acc' rs Hrs).
    unfold normalize_detection in Hstep.
    destruct v as [| | | | | |d]; try (by injection Hstep as <-).
    destruct (dict_contains d "name"); [|by injection Hstep as <-].
    destruct (py_float _ _) as [conf|]; [|done].
    injection Hstep as <-. apply Forall_app. split; [done|].
    by repeat constructor.
Qed.

Lemma parse_numeric content ds :
  parse content = Ok ds → Forall (fun d => numeric_confidence d = true) ds.
Proof.
  unfold _parse_vision_response, _parse_text_response.
  destruct (parse_vision_body _ _ _) as [l|e] eqn:Hbody.
  - intros [= <-]. unfold parse_vision_body in Hbody.
    destruct content as [| | | |s| |]; try done. simpl in Hbody.
    destruct (negb _ && negb _); [|by injection Hbody as <-].
    destruct (json_loads _) as [v|]; [|done]. simpl in Hbody.
    destruct (py_iter v) as [items|]; [|done]. simpl in Hbody.
    by eapply normalize_loop_numeric.
  - destruct (exn_cls e); by intros [= <-].
Qed.

Variable _encode_image : string → result string.
Variable vision_create : string → result pyval.

Local Abbreviation detect :=
  (detect_grocery_items json_loads float_of_str _encode_image vision_create).

(** [detect_grocery_items] returns the filtered normaliser output when
    the image is read and the vision call answers. *)
Lemma detect_grocery_items_spec thr image_path b64 content :
  _encode_image image_path = Ok b64 → vision_create b64 = Ok content →
  ∃ ds, parse content = Ok ds
        ∧ detect thr image_path
          = Ok (filter (fun d => meets_threshold thr d = true) ds).
Proof.
  intros He Hv. destruct (parse_total json_loads float_of_str content)
    as [ds Hds].
  exists ds. split; [done|].
  unfold detect_grocery_items. rewrite He. simpl. rewrite Hv. simpl.
  rewrite Hds. simpl.
  by rewrite confidence_filter_eq by (by eapply parse_numeric).
Qed.

Lemma detect_grocery_items_total thr image_path :
  ∃ ds, detect thr image_path = Ok ds.
Proof.
  unfold detect_grocery_items.
  match goal with |- ∃ ds, match ?r with _ => _ end = _ => destruct r end;
    eauto.
Qed.

Variable detector_init : result unit.

Local Abbreviation detect_objects :=
  (detect_objects_detectron2 json_loads float_of_str _encode_image
     vision_create detector_init).

Lemma suggestions_length ds out :
  get_ingredient_suggestions ds = Ok out → length out ≤ 15.
Proof.
  unfold get_ingredient_suggestions.
  destruct ds as [|d ds]; [intros [= <-]; simpl; lia|].
  destruct (collect_ingredients _) as [ings|]; [|done].
  intros [= <-]. rewrite length_take. lia.
Qed.

(** C10: the entry point returns a list of at most 10 names for every
    image; when the detector is built and the ranker returns, the list is
    the first 10 entries of the ranker's output, which has at most 15. *)
Theorem detect_objects_at_most_10 (image_path : string) :
  ∃ l,
    detect_objects image_path = Ok l
    ∧ length l ≤ 10
    ∧ ∀ detections suggestions,
        detector_init = Ok () →
        detect default_threshold image_path = Ok detections →
        get_ingredient_suggestions detections = Ok suggestions →
        l = take 10 suggestions ∧ length suggestions ≤ 15.
Proof.
  unfold detect_objects_detectron2.
  destruct detector_init as [[]|e]; simpl.
  2:{ exists []. split_and!; [done|simpl; lia|done]. }
  destruct (detect_grocery_items_total default_threshold image_path)
    as [ds Hds].
  rewrite Hds. simpl.
  destruct (get_ingredient_suggestions ds) as [sug|e] eqn:Hsug; simpl.
  - exists (take 10 sug). split_and!; [done|rewrite length_take; lia|].
    intros detections suggestions _ [= <-] Hs.
    rewrite Hsug in Hs. injection Hs as <-.
    split; [done|by eapply suggestions_length].
  - exists []. split_and!; [done|simpl; lia|].
    intros detections suggestions _ [= <-] Hs. by rewrite Hsug in Hs.
Qed.

End FilterClaims.


(** ** The recipe formatter and invoker *)

Section RecipeClaims.

Variable open_read : string → result string.
Variable str_format : string → string → string → result string.
Variable getenv : string → option string.
Variable chat_create : string → string → result (option string).

Local Abbreviation generate :=
  (generate_recipes_from_prompt open_read str_format getenv chat_create).

Lemma load_recipe_prompt_eq :
  load_recipe_prompt open_read = open_read prompt_path.
Proof.
  unfold load_recipe_prompt.
  destruct (open_read prompt_path) as [text|e]; [done|].
  by destruct (exn_cls e).
Qed.

(** C1 (amended): when the template cannot be read, [load_recipe_prompt]
    re-raises the error; [generate_recipes_from_prompt] calls it inside its
    [try] block and returns the formatted error string, for every
    ingredient list and mood. *)
Theorem template_failure_is_caught (ingredients : list string)
    (mood : string) (e : exn) :
  open_read prompt_path = Raise e →
  load_recipe_prompt open_read = Raise e
  ∧ generate ingredients mood = Ok (recipe_error_string e).
Proof.
  intros Hread. split; [by rewrite load_recipe_prompt_eq|].
  unfold generate_recipes_from_prompt, generate_recipes_body.
  by rewrite load_recipe_prompt_eq, Hread.
Qed.

(** C8 (amended): [generate_recipes_from_prompt] always returns a string.
    When the template is read and formatted and the text model answers, the
    string is the header, a blank line, and the answer stripped of leading
    and trailing whitespace (the empty string for an absent answer); when
    the text model fails, it is the formatted error string. *)
Theorem generate_recipes_always_returns (ingredients : list string)
    (mood : string) :
  ∃ text,
    generate ingredients mood = Ok text
    ∧ ∀ template prompt,
        open_read prompt_path = Ok template →
        str_format template (Str.join ", " ingredients) mood = Ok prompt →
        let model_name := default "gpt-4o-mini" (getenv "OPENAI_MODEL") in
        (∀ content,
           chat_create model_name prompt = Ok content →
           text = recipes_header +:+ newline +:+ newline
                  +:+ Str.strip (default "" content))
        ∧ (∀ e,
             chat_create model_name prompt = Raise e →
             text = recipe_error_string e).
Proof.
  unfold generate_recipes_from_prompt.
  destruct (generate_recipes_body _ _ _ _ _ _) as [text|e0] eqn:Hbody;
    eexists; (split; [reflexivity|]);
    intros template prompt Hread Hfmt;
    unfold generate_recipes_body in Hbody;
    rewrite load_recipe_prompt_eq, Hread in Hbody; simpl in Hbody;
    rewrite Hfmt in Hbody; simpl in Hbody;
    split; intros x Hx; rewrite Hx in Hbody; simpl in Hbody;
    congruence.
Qed.

End RecipeClaims.

(** ** Concrete scenarios *)

Lemma parse_vision_body_found json_loads float_of_str s :
  Str.find "[" s ≠ (-1)%Z →
  parse_vision_body json_loads float_of_str (VStr s)
  = Py.bind (json_loads (Str.slice s (Str.find "[" s) (Str.rfind "]" s + 1)))
      (fun detections =>
         Py.bind (py_iter detections)
           (fun items => for_each (normalize_detection float_of_str) items [])).
Proof.
  intros Hstart. unfold parse_vision_body.
  change (as_str (VStr s)) with (Ok s). cbn [mbind result_bind Py.bind].
  apply Z.eqb_neq in Hstart. rewrite Hstart.
  pose proof (rfind_ge "]" s).
  destruct (_ + 1 =? -1)%Z eqn:Hend; [lia|]. reflexivity.
Qed.

Lemma scenario_slice :
  Str.find "[" scenario_text = 21%Z
  ∧ Str.rfind "]" scenario_text = 113%Z
  ∧ Str.slice scenario_text 21 114 = scenario_json.
Proof. vm_compute. done. Qed.

(** C9: on the response text of scenario 1, when [json.loads] reads the
    bracketed array as written, the normaliser and the 0.4 filter yield the
    one detection named "Red Bell Pepper" with confidence 0.9, and the ranker
    turns it into ["red bell pepper"]: no stop word is removed and the name
    is not a key of the synonym table. *)
Theorem scenario_red_bell_pepper
    (json_loads : string → result pyval)
    (float_of_str : string → result float) :
  json_loads scenario_json = Ok scenario_value →
  _parse_vision_response json_loads float_of_str (VStr scenario_text)
  = Ok [scenario_detection]
  ∧ confidence_filter default_threshold [scenario_detection]
    = Ok [scenario_detection]
  ∧ dict_lookup scenario_detection "name" = Some (VStr "Red Bell Pepper")
  ∧ dict_lookup scenario_detection "confidence" = Some (VFloat float_0_9)
  ∧ get_ingredient_suggestions [scenario_detection] = Ok ["red bell pepper"]
  ∧ filter (fun word => word ∉ remove_words) (Str.split "red bell pepper")
    = Str.split "red bell pepper"
  ∧ ingredient_mappings !! "red bell pepper" = None.
Proof.
  intros Hloads. split.
  - destruct scenario_slice as (Hf & Hr & Hs).
    unfold _parse_vision_response.
    rewrite parse_vision_body_found by (rewrite Hf; lia).
    rewrite Hf, Hr. change (113 + 1)%Z with 114%Z. rewrite Hs, Hloads.
    reflexivity.
  - split_and!; vm_compute; reflexivity.
Qed.


(** ** Witnesses and counterexamples *)

(** C1, as stated, fails: with the template missing the call returns the
    error string instead of raising. *)
Lemma template_failure_not_propagated :
  missing_template prompt_path = Raise template_missing_error
  ∧ generate_recipes_from_prompt missing_template simple_format no_env
      padded_answer ["chicken"; "cheese"; "onions"] "Quick & Easy"
    = Ok (recipe_error_string template_missing_error)
  ∧ generate_recipes_from_prompt missing_template simple_format no_env
      padded_answer ["chicken"; "cheese"; "onions"] "Quick & Easy"
    ≠ Raise template_missing_error.
Proof. split_and!; [reflexivity|reflexivity|discriminate]. Qed.

Lemma template_failure_is_caught_witness :
  missing_template prompt_path = Raise template_missing_error
  ∧ load_recipe_prompt missing_template = Raise template_missing_error
  ∧ generate_recipes_from_prompt missing_template simple_format no_env
      padded_answer ["chicken"; "cheese"; "onions"] "Quick & Easy"
    = Ok (recipe_error_string template_missing_error).
Proof.
  split; [reflexivity|].
  apply (template_failure_is_caught missing_template simple_format no_env
           padded_answer ["chicken"; "cheese"; "onions"] "Quick & Easy"
           template_missing_error).
  reflexivity.
Defined.

(** C2, as stated, fails: both elements have a name and the second lacks a
    confidence, yet no record is returned, because [float(None)] raises on
    the first. *)
Lemma null_confidence_drops_everything :
  Json.loads null_confidence_text
  = Ok (VList [VDict [("name", VStr "apple"); ("confidence", VNone)];
               VDict [("name", VStr "banana")]])
  ∧ has_name (VDict [("name", VStr "banana")]) = true
  ∧ dict_lookup [("name", VStr "banana")] "confidence" = None
  ∧ _parse_vision_response Json.loads no_float_of_str
      (VStr null_confidence_text) = Ok [].
Proof. split_and!; vm_compute; reflexivity. Qed.

Lemma parse_vision_response_coerces_witness :
  Str.find "[" scenario_prose = (-1)%Z
  ∧ Str.rfind "]" "" = (-1)%Z
  ∧ Json.loads ("[" +:+ scenario_object +:+ "]") = Ok scenario_value
  ∧ ∃ rs,
      _parse_vision_response Json.loads no_float_of_str
        (VStr (scenario_prose +:+ "[" +:+ scenario_object +:+ "]" +:+ ""))
      = Ok rs
      ∧ Forall2 (coerced (py_float no_float_of_str))
          [VDict scenario_detection] rs.
Proof.
  split_and!; [vm_compute; reflexivity..|].
  apply (parse_vision_response_coerces Json.loads no_float_of_str
           scenario_prose scenario_object "" [VDict scenario_detection]);
    [vm_compute; reflexivity..|].
  repeat constructor.
Defined.

Lemma parse_vision_response_never_raises_witness :
  ∃ l,
    _parse_vision_response Json.loads no_float_of_str (VStr prose_only) = Ok l
    ∧ l = [].
Proof.
  destruct (parse_vision_response_never_raises Json.loads no_float_of_str
              (VStr prose_only)) as (l & Hl & Hempty).
  exists l. split; [exact Hl|].
  destruct (Hempty prose_only eq_refl) as (Hno & _). apply Hno.
  vm_compute. reflexivity.
Defined.

Lemma confidence_filter_exact_witness :
  Forall (fun d => numeric_confidence d = true) mixed_confidences
  ∧ ∃ out,
      confidence_filter default_threshold mixed_confidences = Ok out
      ∧ out = filter (fun d => meets_threshold default_threshold d = true)
                mixed_confidences
      ∧ out `sublist_of` mixed_confidences
      ∧ ∀ d, d ∈ out
             ↔ d ∈ mixed_confidences
               ∧ meets_threshold default_threshold d = true.
Proof.
  assert (Forall (fun d => numeric_confidence d = true) mixed_confidences)
    as H by (repeat constructor).
  split; [exact H|].
  exact (confidence_filter_exact default_threshold mixed_confidences H).
Defined.

Lemma ranker_at_most_15_distinct_witness :
  Forall (fun d => str_fields d = true) garlic_detections
  ∧ ∃ out,
      get_ingredient_suggestions garlic_detections = Ok out
      ∧ length out ≤ 15
      ∧ NoDup out
      ∧ NoDup (Str.lower <$> out).
Proof.
  assert (Forall (fun d => str_fields d = true) garlic_detections)
    as H by (repeat constructor).
  split; [exact H|].
  exact (ranker_at_most_15_distinct garlic_detections H).
Defined.

Lemma ranker_sort_stable_witness :
  Forall (fun d => str_fields d = true) tier_detections
  ∧ ∃ out dedup,
      get_ingredient_suggestions tier_detections = Ok out
      ∧ collect_ingredients tier_detections = Ok dedup
      ∧ ∀ i j a b,
          out !! i = Some a → out !! j = Some b →
          _get_ingredient_priority a = _get_ingredient_priority b →
          (i < j ↔ index_of a dedup < index_of b dedup)
          ∧ (i < j ↔ index_of a (candidates tier_detections)
                     < index_of b (candidates tier_detections)).
Proof.
  assert (Forall (fun d => str_fields d = true) tier_detections)
    as H by (repeat constructor).
  split; [exact H|].
  exact (ranker_sort_stable tier_detections H).
Defined.

(** C7, as stated, fails: the category "VEGETABLE" is not in the allowlist
    and "kale" contains no food substring, yet "kale" is returned. *)
Lemma capital_category_accepted :
  get_ingredient_suggestions [kale_detection] = Ok ["kale"]
  ∧ ¬ ∃ d, d ∈ [kale_detection] ∧ originates (fun cat => cat) "kale" d.
Proof.
  split; [vm_compute; reflexivity|].
  intros (d & Hd & name & cat & Hn & Hc & Hx & Hfood).
  apply list_elem_of_singleton in Hd as ->.
  vm_compute in Hc. injection Hc as <-.
  destruct Hfood as [Hcat|(w & Hw & Hcont)].
  - assert (bool_decide ("VEGETABLE" ∈ food_categories) = false) as Hf
      by (vm_compute; reflexivity).
    apply bool_decide_eq_false in Hf. done.
  - repeat (apply elem_of_cons in Hw as [->|Hw];
            [vm_compute in Hcont; discriminate|]).
    by apply elem_of_nil in Hw.
Qed.

Lemma ranker_output_names_witness :
  Forall (fun d => str_fields d = true) [kale_detection]
  ∧ ∃ out,
      get_ingredient_suggestions [kale_detection] = Ok out
      ∧ ∀ x, x ∈ out →
          2 ≤ String.length x ∧ lowercase x
          ∧ ∃ d, d ∈ [kale_detection] ∧ originates Str.lower x d.
Proof.
  assert (Forall (fun d => str_fields d = true) [kale_detection])
    as H by (repeat constructor).
  split; [exact H|].
  exact (ranker_output_names [kale_detection] H).
Defined.

(** C8, as stated, fails on the success path: the text returned after the
    header is the answer stripped of its surrounding whitespace, not the
    answer as received. *)
Lemma padded_answer_is_stripped :
  padded_answer "gpt-4o-mini" "" = Ok (Some "  Recipe 1: Omelette  ")
  ∧ generate_recipes_from_prompt template_present simple_format no_env
      padded_answer ["eggs"] "Quick & Easy"
    = Ok (recipes_header +:+ newline +:+ newline +:+ "Recipe 1: Omelette")
  ∧ generate_recipes_from_prompt template_present simple_format no_env
      padded_answer ["eggs"] "Quick & Easy"
    ≠ Ok (recipes_header +:+ newline +:+ newline
          +:+ "  Recipe 1: Omelette  ").
Proof.
  split_and!; [reflexivity|vm_compute; reflexivity|].
  vm_compute. discriminate.
Qed.

Lemma generate_recipes_always_returns_witness :
  ∃ text,
    generate_recipes_from_prompt template_present simple_format no_env
      failing_model ["eggs"] "Quick & Easy" = Ok text
    ∧ text = recipe_error_string (Exn OpenAIError "Connection error.").
Proof.
  destruct (generate_recipes_always_returns template_present simple_format
              no_env failing_model ["eggs"] "Quick & Easy")
    as (text & Htext & Hcases).
  exists text. split; [exact Htext|].
  destruct (Hcases _ _ eq_refl eq_refl) as [_ Hfail].
  apply Hfail. reflexivity.
Defined.

Lemma scenario_red_bell_pepper_witness :
  Json.loads scenario_json = Ok scenario_value
  ∧ _parse_vision_response Json.loads no_float_of_str (VStr scenario_text)
    = Ok [scenario_detection]
  ∧ confidence_filter default_threshold [scenario_detection]
    = Ok [scenario_detection]
  ∧ dict_lookup scenario_detection "name" = Some (VStr "Red Bell Pepper")
  ∧ dict_lookup scenario_detection "confidence" = Some (VFloat float_0_9)
  ∧ get_ingredient_suggestions [scenario_detection] = Ok ["red bell pepper"]
  ∧ filter (fun word => word ∉ remove_words) (Str.split "red bell pepper")
    = Str.split "red bell pepper"
  ∧ ingredient_mappings !! "red bell pepper" = None.
Proof.
  assert (Json.loads scenario_json = Ok scenario_value) as H
    by (vm_compute; reflexivity).
  split; [exact H|].
  exact (scenario_red_bell_pepper Json.loads no_float_of_str H).
Defined.

(** * Further properties *)

(** ** Words, [split] and [join] *)

Section WordFacts.

Lemma append_nil_r (s : string) : s +:+ "" = s.
Proof. induction s as [|c s IH]; [done|]. by rewrite append_cons, IH. Qed.

Lemma is_empty_append s t :
  Str.is_empty (s +:+ t) = Str.is_empty s && Str.is_empty t.
Proof. by destruct s. Qed.

Lemma is_word_spec w :
  is_word w = true
  ↔ Str.is_empty w = false ∧ Str.all_chars non_space w = true.
Proof.
  unfold is_word. rewrite andb_true_iff, negb_true_iff. tauto.
Qed.

(** [split] returns words. *)
Lemma split_go_words s : ∀ cur,
  Str.all_chars non_space cur = true →
  Forall (fun w => is_word w = true) (Str.split_go s cur).
Proof.
  induction s as [|c s IH]; intros cur Hcur; simpl.
  - destruct (Str.is_empty cur) eqn:He; [constructor|].
    repeat constructor. apply is_word_spec. done.
  - destruct (Str.isspace c) eqn:Hc.
    + destruct (Str.is_empty cur) eqn:He; [by apply IH|].
      constructor; [by apply is_word_spec|by apply IH].
    + apply IH. rewrite all_chars_app, Hcur. simpl.
      unfold non_space. by rewrite Hc.
Qed.

Lemma split_words s : Forall (fun w => is_word w = true) (Str.split s).
Proof. by apply split_go_words. Qed.

(** Reading a whitespace-free string only extends the current run. *)
Lemma split_go_app_word w : ∀ rest cur,
  Str.all_chars non_space w = true →
  Str.split_go (w +:+ rest) cur = Str.split_go rest (cur +:+ w).
Proof.
  induction w as [|c w IH]; intros rest cur Hw.
  - by rewrite append_nil_l, append_nil_r.
  - simpl in Hw. apply andb_true_iff in Hw as [Hc Hw].
    rewrite append_cons. simpl.
    unfold non_space in Hc. apply negb_true_iff in Hc. rewrite Hc.
    rewrite IH by done. by rewrite append_assoc, append_cons, append_nil_l.
Qed.

(** Round trip: splitting words joined by single spaces gives them back. *)
Lemma split_join ws :
  Forall (fun w => is_word w = true) ws →
  Str.split (Str.join " " ws) = ws.
Proof.
  unfold Str.split. induction 1 as [|w ws Hw Hws IH]; [done|].
  apply is_word_spec in Hw as [Hne Hns].
  destruct ws as [|w' ws].
  - change (Str.join " " [w]) with w.
    rewrite <- (append_nil_r w) at 1. rewrite split_go_app_word by done.
    rewrite append_nil_l. simpl. by rewrite Hne.
  - change (Str.join " " (w :: w' :: ws))
      with (w +:+ " " +:+ Str.join " " (w' :: ws)).
    rewrite split_go_app_word by done. rewrite append_nil_l.
    change (" " +:+ Str.join " " (w' :: ws))
      with (String " " (Str.join " " (w' :: ws))).
    simpl Str.split_go at 1.
    change (Str.isspace " ") with true. cbv iota. rewrite Hne.
    f_equal. exact IH.
Qed.

Lemma rstrip_word w : is_word w = true → Str.rstrip w = w.
Proof.
  intros [_ Hns]%is_word_spec.
  induction w as [|c w IH]; [done|].
  simpl in Hns. apply andb_true_iff in Hns as [Hc Hns].
  unfold non_space in Hc. apply negb_true_iff in Hc.
  simpl. rewrite Hc, andb_false_r. by rewrite IH.
Qed.

Lemma rstrip_app_word t w :
  is_word w = true → Str.rstrip (t +:+ w) = t +:+ w.
Proof.
  intros Hw. induction t as [|c t IH].
  - rewrite append_nil_l. by apply rstrip_word.
  - rewrite append_cons. simpl. rewrite IH.
    apply is_word_spec in Hw as [Hne _].
    by rewrite is_empty_append, Hne, andb_false_r.
Qed.

Lemma lstrip_word_app w t : is_word w = true → Str.lstrip (w +:+ t) = w +:+ t.
Proof.
  intros [Hne Hns]%is_word_spec. destruct w as [|c w]; [done|].
  simpl in Hns. apply andb_true_iff in Hns as [Hc _].
  unfold non_space in Hc. apply negb_true_iff in Hc.
  rewrite append_cons. simpl. by rewrite Hc.
Qed.

(** Words joined by single spaces end in a word ... *)
Lemma join_ends_in_word w ws :
  Forall (fun w => is_word w = true) (w :: ws) →
  ∃ t w', is_word w' = true ∧ Str.join " " (w :: ws) = t +:+ w'.
Proof.
  revert w. induction ws as [|w2 ws IH]; intros w Hws.
  - exists "", w. split; [by apply Forall_inv in Hws|done].
  - apply Forall_cons in Hws as [Hw Hws].
    destruct (IH w2 Hws) as (t & w' & Hw' & Heq).
    exists (w +:+ " " +:+ t), w'. split; [done|].
    change (Str.join " " (w :: w2 :: ws))
      with (w +:+ " " +:+ Str.join " " (w2 :: ws)).
    by rewrite Heq, !append_assoc.
Qed.

(** ... so they have nothing to strip. *)
Lemma strip_join ws :
  Forall (fun w => is_word w = true) ws →
  Str.strip (Str.join " " ws) = Str.join " " ws.
Proof.
  intros Hws. destruct ws as [|w ws]; [done|].
  unfold Str.strip.
  assert (Str.lstrip (Str.join " " (w :: ws)) = Str.join " " (w :: ws)) as ->.
  { destruct ws as [|w2 ws].
    - rewrite <- (append_nil_r w). apply lstrip_word_app.
      by apply Forall_inv in Hws.
    - apply lstrip_word_app. by apply Forall_inv in Hws. }
  destruct (join_ends_in_word w ws Hws) as (t & w' & Hw' & ->).
  by apply rstrip_app_word.
Qed.

Lemma rstrip_idem s : Str.rstrip (Str.rstrip s) = Str.rstrip s.
Proof.
  induction s as [|c s IH]; [done|]. simpl.
  destruct (Str.is_empty (Str.rstrip s) && Str.isspace c) eqn:Hc; [done|].
  simpl. by rewrite IH, Hc.
Qed.

Lemma lstrip_rstrip_lstrip s :
  Str.lstrip (Str.rstrip (Str.lstrip s)) = Str.rstrip (Str.lstrip s).
Proof.
  induction s as [|c s IH]; [done|]. simpl.
  destruct (Str.isspace c) eqn:Hc; [done|]. simpl.
  rewrite Hc, andb_false_r. simpl. by rewrite Hc.
Qed.

Lemma strip_idem s : Str.strip (Str.strip s) = Str.strip s.
Proof.
  unfold Str.strip. by rewrite lstrip_rstrip_lstrip, rstrip_idem.
Qed.

End WordFacts.

(** ** The name normaliser of the ranker *)

Section NormalizeFacts.

Lemma normalize_unfold name :
  _normalize_ingredient_name name
  = default (Str.join " " (kept_words name))
            (ingredient_mappings !! Str.join " " (kept_words name)).
Proof.
  unfold _normalize_ingredient_name, kept_words.
  rewrite strip_join; [done|].
  apply Forall_forall. intros w [_ Hw]%list_elem_of_filter. revert w Hw.
  apply Forall_forall, split_words.
Qed.

Lemma kept_words_words name :
  Forall (fun w => is_word w = true) (kept_words name).
Proof.
  apply Forall_forall. intros w [_ Hw]%list_elem_of_filter. revert w Hw.
  apply Forall_forall, split_words.
Qed.

Lemma kept_words_low name :
  Str.all_chars is_low (Str.join " " (kept_words name)) = true.
Proof.
  apply all_chars_join; [done|].
  apply Forall_forall. intros w [_ Hw]%list_elem_of_filter. revert w Hw.
  apply Forall_forall, all_chars_split_go; [apply lower_is_low|done].
Qed.

(** The kept words of the joined kept words are the kept words. *)
Lemma kept_words_join name :
  kept_words (Str.join " " (kept_words name)) = kept_words name.
Proof.
  unfold kept_words at 1.
  pose proof (kept_words_low name) as Hlow.
  apply lowercase_all_chars in Hlow. rewrite Hlow.
  rewrite split_join by apply kept_words_words.
  unfold kept_words. apply list_filter_filter_l. done.
Qed.

(** What the mapping table returns is left alone by the normaliser, has no
    stop word, and is written with single spaces. *)
Lemma mapping_values_fixed k v :
  ingredient_mappings !! k = Some v →
  _normalize_ingredient_name v = v
  ∧ kept_words v = Str.split v
  ∧ Str.join " " (Str.split v) = v
  ∧ Str.strip v = v
  ∧ v ≠ "bell pepper".
Proof.
  intros H. apply elem_of_list_to_map_2 in H.
  repeat (apply elem_of_cons in H as [[= -> ->]|H];
          [split_and!; [vm_compute; reflexivity..|discriminate]|]).
  by apply elem_of_nil in H.
Qed.

End NormalizeFacts.

(** X1: normalising a name twice is normalising it once. *)
Theorem normalize_idempotent (name : string) :
  _normalize_ingredient_name (_normalize_ingredient_name name)
  = _normalize_ingredient_name name.
Proof.
  rewrite (normalize_unfold name).
  destruct (ingredient_mappings !! _) as [v|] eqn:Hv; simpl.
  - by destruct (mapping_values_fixed _ _ Hv) as (-> & _).
  - rewrite normalize_unfold, kept_words_join, Hv. done.
Qed.

(** X2: a normalised name is in canonical form: lowercase, without
    leading or trailing whitespace, its words separated by single spaces,
    and none of its words is a packaging or freshness word. *)
Theorem normalize_canonical (name : string) :
  lowercase (_normalize_ingredient_name name)
  ∧ Str.strip (_normalize_ingredient_name name)
    = _normalize_ingredient_name name
  ∧ Str.join " " (Str.split (_normalize_ingredient_name name))
    = _normalize_ingredient_name name
  ∧ Forall (fun word => word ∉ remove_words)
           (Str.split (_normalize_ingredient_name name)).
Proof.
  split; [apply normalize_lowercase|].
  rewrite (normalize_unfold name).
  destruct (ingredient_mappings !! _) as [v|] eqn:Hv; simpl.
  - destruct (mapping_values_fixed _ _ Hv) as (_ & Hk & Hj & Hs & _).
    split_and!; [done..|]. rewrite <- Hk.
    apply Forall_forall. by intros w [? _]%list_elem_of_filter.
  - rewrite strip_join, split_join by apply kept_words_words.
    split_and!; [done..|].
    apply Forall_forall. by intros w [? _]%list_elem_of_filter.
Qed.

(** The normaliser never returns "bell pepper": the mapping table
    rewrites it to "bell peppers". *)
Lemma normalize_not_bell_pepper name :
  _normalize_ingredient_name name ≠ "bell pepper".
Proof.
  rewrite (normalize_unfold name).
  destruct (ingredient_mappings !! _) as [v|] eqn:Hv; simpl.
  - by destruct (mapping_values_fixed _ _ Hv) as (_ & _ & _ & _ & ?).
  - intros Heq. rewrite Heq in Hv. vm_compute in Hv. discriminate.
Qed.

(** ** The ranker: order, completeness, errors *)

Section RankerMore.

Implicit Types ds : list dict.

Local Abbreviation tier_le :=
  (fun a b : string => (_get_ingredient_priority a ≤ _get_ingredient_priority b)%Z).

Lemma sort_by_tier_strongly_sorted (l : list string) :
  StronglySorted tier_le (sort_by_key _get_ingredient_priority l).
Proof.
  apply Sorted_StronglySorted; [|apply sort_by_key_sorted].
  intros a b c. simpl. lia.
Qed.

Lemma strongly_sorted_pair {A} (R : A → A → Prop) l a b :
  StronglySorted R l → [a; b] `sublist_of` l → R a b.
Proof.
  induction 1 as [|x l Hl IH Hx]; intros Hsub.
  - by apply sublist_nil_r in Hsub.
  - apply sublist_cons_r in Hsub as [Hsub|(l' & [= <- <-] & Hsub)]; [by apply IH|].
    rewrite Forall_forall in Hx. apply Hx.
    eapply elem_of_sublist; [|done]. by left.
Qed.

Lemma strongly_sorted_split {A} (R : A → A → Prop) l n a b :
  StronglySorted R l → a ∈ take n l → b ∈ drop n l → R a b.
Proof.
  intros Hl Ha Hb.
  apply list_elem_of_lookup in Ha as [i Hi], Hb as [j Hj].
  rewrite lookup_drop in Hj.
  assert (i < n) by (apply lookup_lt_Some in Hi; rewrite length_take in Hi; lia).
  rewrite lookup_take_lt in Hi by done.
  apply (strongly_sorted_pair R l); [done|].
  apply (lookup_lt_sublist l i (n + j)); [done..|lia].
Qed.

(** The ranker output is the first 15 names of the sorted collected names. *)
Lemma suggestions_sorted_prefix ds out :
  get_ingredient_suggestions ds = Ok out →
  ∃ ings, collect_ingredients ds = Ok ings
          ∧ out = take 15 (sort_by_key _get_ingredient_priority ings).
Proof.
  unfold get_ingredient_suggestions.
  destruct ds as [|d ds]; [intros [= <-]; by exists []|].
  destruct (collect_ingredients _) as [ings|]; [|done].
  intros [= <-]. by exists ings.
Qed.

(** A loop turn on a detection with an ill-typed field raises
    [AttributeError] ... *)
Lemma suggestion_step_raises st d :
  str_fields d = false →
  ∃ msg, suggestion_step st d = Raise (Exn AttributeError msg).
Proof.
  unfold str_fields, suggestion_step. destruct st as [ings seen].
  destruct (dict_get d "name" (VStr "")) as [| | | |name| |];
    try (intros _; eexists; reflexivity).
  destruct (dict_get d "category" (VStr "other")) as [| | | |cat| |];
    try (intros _; eexists; reflexivity).
  done.
Qed.

(** ... and so does the loop. *)
Lemma for_each_suggestion_raises ds : ∀ st,
  Exists (fun d => str_fields d = false) ds →
  ∃ msg, for_each suggestion_step ds st = Raise (Exn AttributeError msg).
Proof.
  induction ds as [|d ds IH]; intros st Hex; [by apply Exists_nil in Hex|].
  rewrite for_each_cons.
  destruct (str_fields d) eqn:Hd.
  - apply Exists_cons in Hex as [Hex|Hex]; [congruence|].
    destruct st as [ings seen]. rewrite suggestion_step_spec by done.
    simpl. by apply IH.
  - destruct (suggestion_step_raises st d Hd) as [msg ->]. by exists msg.
Qed.

Lemma suggestions_raise ds :
  Exists (fun d => str_fields d = false) ds →
  ∃ msg, get_ingredient_suggestions ds = Raise (Exn AttributeError msg).
Proof.
  intros Hex. unfold get_ingredient_suggestions, collect_ingredients.
  destruct (for_each_suggestion_raises ds ([], ∅) Hex) as [msg Hmsg].
  destruct ds as [|d ds]; [by apply Exists_nil in Hex|].
  rewrite Hmsg. by exists msg.
Qed.

Lemma str_fields_dec ds :
  Forall (fun d => str_fields d = true) ds
  ∨ Exists (fun d => str_fields d = false) ds.
Proof.
  induction ds as [|d ds [IH|IH]]; [by left| |by right; right].
  destruct (str_fields d) eqn:Hd; [left; by constructor|right; by left].
Qed.

(** When the ranker returns, every name and category was a string. *)
Lemma suggestions_ok_fields ds out :
  get_ingredient_suggestions ds = Ok out →
  Forall (fun d => str_fields d = true) ds.
Proof.
  intros Hout. destruct (str_fields_dec ds) as [H|H]; [done|].
  destruct (suggestions_raise ds H) as [msg Hmsg]. congruence.
Qed.

Lemma suggestions_candidates ds out x :
  get_ingredient_suggestions ds = Ok out → x ∈ out → x ∈ candidates ds.
Proof.
  intros Hout Hx.
  rewrite get_ingredient_suggestions_spec in Hout
    by (by eapply suggestions_ok_fields).
  injection Hout as <-.
  apply elem_of_dedup_first.
  rewrite <- (sort_by_key_perm _get_ingredient_priority).
  eapply elem_of_sublist; [done|apply sublist_take].
Qed.

Lemma candidate_valid d x :
  candidate d = Some x →
  ∃ name category,
    x = _normalize_ingredient_name name
    ∧ _is_valid_ingredient x category = true.
Proof.
  unfold candidate.
  destruct (dict_get d "name" (VStr "")) as [| | | |name| |]; try done.
  destruct (dict_get d "category" (VStr "other")) as [| | | |cat| |];
    try done.
  destruct (Str.is_empty _); [done|].
  destruct (_is_valid_ingredient _ _) eqn:Hv; [|done].
  intros [= <-]. eauto.
Qed.

Lemma valid_not_generic name category :
  _is_valid_ingredient name category = true → name ∉ invalid_terms.
Proof.
  unfold _is_valid_ingredient.
  destruct (String.length name <? 2); [done|].
  destruct (bool_decide (name ∈ invalid_terms)) eqn:Hb; [done|].
  intros _. by apply bool_decide_eq_false in Hb.
Qed.

End RankerMore.

(** X3: the ranker output is ordered by tier: a name never stands
    before a name of a better (smaller) tier. *)
Theorem ranker_tier_order (ds : list dict) (out : list string)
    (i j : nat) (a b : string) :
  get_ingredient_suggestions ds = Ok out →
  out !! i = Some a → out !! j = Some b → i < j →
  (_get_ingredient_priority a ≤ _get_ingredient_priority b)%Z.
Proof.
  intros Hout Hi Hj Hlt.
  destruct (suggestions_sorted_prefix ds out Hout) as (ings & _ & ->).
  apply (strongly_sorted_pair
           (fun a b => (_get_ingredient_priority a
                        ≤ _get_ingredient_priority b)%Z)
           (sort_by_key _get_ingredient_priority ings));
    [apply sort_by_tier_strongly_sorted|].
  etrans; [by eapply lookup_lt_sublist|apply sublist_take].
Qed.

(** X4: the cut to 15 loses only the worst: the output has
    [min 15 n] names for [n] distinct candidate names; with at most 15 of
    them it is a rearrangement of all of them; and a candidate name that
    is left out has no better tier than any of the 15 returned. *)
Theorem ranker_keeps_best_15 (ds : list dict) (out : list string) :
  get_ingredient_suggestions ds = Ok out →
  length out = 15 `min` length (dedup_first (candidates ds))
  ∧ (length (dedup_first (candidates ds)) ≤ 15 →
     out ≡ₚ dedup_first (candidates ds))
  ∧ ∀ x, x ∈ candidates ds → x ∉ out →
      length out = 15
      ∧ ∀ y, y ∈ out →
          (_get_ingredient_priority y ≤ _get_ingredient_priority x)%Z.
Proof.
  intros Hout.
  rewrite get_ingredient_suggestions_spec in Hout
    by (by eapply suggestions_ok_fields).
  injection Hout as <-.
  set (dedup := dedup_first (candidates ds)).
  set (srt := sort_by_key _get_ingredient_priority dedup).
  assert (length srt = length dedup) as Hlen
    by (unfold srt; by rewrite sort_by_key_perm).
  split_and!.
  - rewrite length_take. lia.
  - intros Hle. rewrite take_ge by lia. apply sort_by_key_perm.
  - intros x Hx Hnot.
    assert (x ∈ drop 15 srt) as Hdrop.
    { assert (x ∈ take 15 srt ++ drop 15 srt) as Hin.
      { rewrite take_drop. unfold srt. rewrite sort_by_key_perm.
        by apply elem_of_dedup_first. }
      apply elem_of_app in Hin as [?|?]; done. }
    split.
    + apply list_elem_of_lookup in Hdrop as [k Hk].
      apply lookup_lt_Some in Hk. rewrite length_drop in Hk.
      rewrite length_take. lia.
    + intros y Hy.
      apply (strongly_sorted_split
               (fun a b => (_get_ingredient_priority a
                            ≤ _get_ingredient_priority b)%Z) srt 15);
        [|done..].
      apply sort_by_tier_strongly_sorted.
Qed.

(** X5: a detection whose name or category is present and is not a
    string makes the ranker raise [AttributeError], wherever it stands in
    the list. *)
Theorem ranker_rejects_non_string_field (ds : list dict) :
  Exists (fun d => str_fields d = false) ds →
  ∃ msg, get_ingredient_suggestions ds = Raise (Exn AttributeError msg).
Proof. apply suggestions_raise. Qed.

(** X6: the ranker never outputs one of the generic terms, and never
    outputs "bell pepper", which the mapping table turns into
    "bell peppers": that entry of the high-priority list matches no
    output name. *)
Theorem ranker_never_outputs (ds : list dict) (out : list string) (x : string) :
  get_ingredient_suggestions ds = Ok out → x ∈ out →
  (x ∉ invalid_terms) ∧ x ≠ "bell pepper".
Proof.
  intros Hout Hx.
  pose proof (suggestions_candidates ds out x Hout Hx) as Hc.
  apply list_elem_of_omap in Hc as (d & _ & Hc).
  destruct (candidate_valid d x Hc) as (name & cat & -> & Hv).
  split; [by eapply valid_not_generic|apply normalize_not_bell_pepper].
Qed.

(** ** The normaliser and the detector *)

Section DetectorMore.

Variable json_loads : string → result pyval.
Variable float_of_str : string → result float.

Local Abbreviation parse := (_parse_vision_response json_loads float_of_str).
Local Abbreviation step := (normalize_detection float_of_str).

Lemma normalize_loop_records arr : ∀ acc rs,
  for_each step arr acc = Ok rs →
  Forall is_record acc → Forall is_record rs.
Proof.
  induction arr as [|v arr IH]; intros acc rs Hrs Hacc.
  - by injection Hrs as <-.
  - rewrite for_each_cons in Hrs.
    destruct (step acc v) as [acc'|e] eqn:Hstep; [|done].
    apply (IH acc' rs Hrs).
    unfold normalize_detection in Hstep.
    destruct v as [| | | | | |d]; try (by injection Hstep as <-).
    destruct (dict_contains d "name"); [|by injection Hstep as <-].
    destruct (py_float _ _) as [conf|]; [|done].
    injection Hstep as <-. apply Forall_app. split; [done|].
    repeat constructor. by eexists _, _, _, _.
Qed.

Lemma parse_records content ds :
  parse content = Ok ds → Forall is_record ds.
Proof.
  unfold _parse_vision_response, _parse_text_response.
  destruct (parse_vision_body _ _ _) as [l|e] eqn:Hbody.
  - intros [= <-]. unfold parse_vision_body in Hbody.
    destruct content as [| | | |s| |]; try done. simpl in Hbody.
    destruct (negb _ && negb _); [|by injection Hbody as <-].
    destruct (json_loads _) as [v|]; [|done]. simpl in Hbody.
    destruct (py_iter v) as [items|]; [|done]. simpl in Hbody.
    by eapply normalize_loop_records.
  - destruct (exn_cls e); by intros [= <-].
Qed.

Lemma parse_not_str content :
  (∀ s, content ≠ VStr s) → parse content = Ok [].
Proof.
  intros Hns. destruct content as [| | | |s| |]; try done.
  by destruct (Hns s).
Qed.

(** X7: whatever the content, the normaliser returns records with exactly
    the keys name, confidence, category and description, in this order,
    the confidence being a float. *)
Theorem parse_vision_response_records (content : pyval) :
  ∃ ds,
    parse content = Ok ds
    ∧ Forall (fun d => ∃ name confidence category description,
                d = detection_record name confidence category description)
             ds.
Proof.
  destruct (parse_total json_loads float_of_str content) as [ds Hds].
  exists ds. split; [done|]. by eapply parse_records.
Qed.

(** X8: the text around the outermost brackets plays no part: a response
    [pre [ mid ] post] with no ['['] in [pre] and no [']'] in [post] is
    read as the response [[ mid ]]. *)
Theorem parse_vision_response_ignores_prose (pre mid post : string) :
  Str.find "[" pre = (-1)%Z → Str.rfind "]" post = (-1)%Z →
  parse (VStr (pre +:+ "[" +:+ mid +:+ "]" +:+ post))
  = parse (VStr ("[" +:+ mid +:+ "]")).
Proof.
  intros Hpre Hpost.
  destruct (bracket_slice pre mid post Hpre Hpost) as [Hstart Hslice].
  destruct (bracket_slice "" mid "" eq_refl eq_refl) as [Hstart' Hslice'].
  rewrite append_nil_l, append_nil_r in Hstart', Hslice'.
  unfold _parse_vision_response.
  rewrite !parse_vision_body_found by done.
  by rewrite Hslice, Hslice'.
Qed.

Variable _encode_image : string → result string.
Variable vision_create : string → result pyval.

Local Abbreviation detect :=
  (detect_grocery_items json_loads float_of_str _encode_image vision_create).

(** X9: [detect_grocery_items] returns the empty list when the image
    cannot be read, when the vision call raises, and when the answer has
    no text content. *)
Theorem detect_grocery_items_failure (thr : float) (image_path : string) :
  (∀ s, vision_content _encode_image vision_create image_path
        ≠ Ok (VStr s)) →
  detect_grocery_items json_loads float_of_str _encode_image vision_create
    thr image_path
  = Ok [].
Proof.
  unfold vision_content, detect_grocery_items. intros Hns.
  destruct (_encode_image image_path) as [b64|e]; [|done]. simpl in *.
  destruct (vision_create b64) as [content|e]; [|done]. simpl.
  rewrite parse_not_str; [done|].
  intros s ->. by destruct (Hns s).
Qed.

(** X10: [detect_grocery_items] never raises, and every detection it
    returns is a four-key record whose confidence is a float at least the
    threshold. *)
Theorem detect_grocery_items_above_threshold (thr : float)
    (image_path : string) :
  ∃ ds,
    detect thr image_path = Ok ds
    ∧ Forall (fun d => ∃ name confidence category description,
                d = detection_record name confidence category description
                ∧ PrimFloat.leb thr confidence = true)
             ds.
Proof.
  destruct (_encode_image image_path) as [b64|e] eqn:He.
  2:{ exists []. split; [|done]. unfold detect_grocery_items. by rewrite He. }
  destruct (vision_create b64) as [content|e] eqn:Hv.
  2:{ exists []. split; [|done].
      unfold detect_grocery_items. rewrite He. simpl. by rewrite Hv. }
  destruct (detect_grocery_items_spec json_loads float_of_str _encode_image
              vision_create thr image_path b64 content He Hv)
    as (ps & Hps & ->).
  eexists. split; [done|].
  apply Forall_forall. intros d [Hm Hd]%list_elem_of_filter.
  pose proof (parse_records content ps Hps) as Hrec.
  rewrite Forall_forall in Hrec.
  destruct (Hrec d Hd) as (name & conf & cat & desc & ->).
  by exists name, conf, cat, desc.
Qed.

Variable detector_init : result unit.

Local Abbreviation detect_objects :=
  (detect_objects_detectron2 json_loads float_of_str _encode_image
     vision_create detector_init).

(** X11: the names the entry point returns are pairwise distinct,
    lowercase, at least two characters long, and none is a generic
    term. *)
Theorem detect_objects_names (image_path : string) :
  ∃ l,
    detect_objects image_path = Ok l
    ∧ NoDup l
    ∧ ∀ x, x ∈ l →
        2 ≤ String.length x ∧ lowercase x ∧ x ∉ invalid_terms.
Proof.
  unfold detect_objects_detectron2.
  destruct detector_init as [[]|e]; simpl.
  2:{ exists []. split_and!; [done|constructor|]. by intros x ?%elem_of_nil. }
  destruct (detect_grocery_items_total json_loads float_of_str _encode_image
              vision_create default_threshold image_path) as [ds ->].
  simpl.
  destruct (get_ingredient_suggestions ds) as [sug|e] eqn:Hsug; simpl.
  2:{ exists []. split_and!; [done|constructor|]. by intros x ?%elem_of_nil. }
  exists (take 10 sug). split; [done|].
  pose proof (suggestions_ok_fields ds sug Hsug) as Hf.
  split.
  - eapply sublist_NoDup; [|apply sublist_take].
    rewrite get_ingredient_suggestions_spec in Hsug by done.
    injection Hsug as <-.
    eapply sublist_NoDup; [|apply sublist_take].
    rewrite sort_by_key_perm. apply NoDup_dedup_first.
  - intros x Hx.
    assert (x ∈ sug) as Hs by (eapply elem_of_sublist; [done|apply sublist_take]).
    pose proof (suggestions_candidates ds sug x Hsug Hs) as Hc.
    apply list_elem_of_omap in Hc as (d & _ & Hc).
    destruct (candidate_Some d x Hc) as (? & ? & _).
    destruct (candidate_valid d x Hc) as (name & cat & _ & Hv).
    split_and!; [done..|by eapply valid_not_generic].
Qed.

(** X12: the entry point returns the empty list when the detector cannot
    be built, and when a detection that passed the filter has a name or a
    category that is not a string: the ranker's [AttributeError] is
    caught, and the other detections are lost with it. *)
Theorem detect_objects_empty_on_failure (image_path : string)
    (ds : list dict) :
  detect default_threshold image_path = Ok ds →
  is_ok detector_init = false
  ∨ Exists (fun d => str_fields d = false) ds →
  detect_objects image_path = Ok [].
Proof.
  intros Hds Hfail. unfold detect_objects_detectron2.
  destruct detector_init as [[]|e]; simpl; [|done].
  destruct Hfail as [|Hex]; [done|].
  rewrite Hds. simpl.
  by destruct (suggestions_raise ds Hex) as [msg ->].
Qed.

End DetectorMore.

(** ** The custom ingredients of the page *)

Section CustomList.

Lemma split_on_pieces sep s : ∀ cur,
  Str.all_chars (fun c => negb (Ascii.eqb c sep)) cur = true →
  Forall (fun p => Str.all_chars (fun c => negb (Ascii.eqb c sep)) p = true)
         (split_on sep s cur).
Proof.
  induction s as [|c s IH]; intros cur Hcur; simpl.
  - by repeat constructor.
  - destruct (Ascii.eqb c sep) eqn:Hc.
    + constructor; [done|by apply IH].
    + apply IH. rewrite all_chars_app, Hcur. simpl. by rewrite Hc.
Qed.

(** Reading a piece without separator only extends the current piece. *)
Lemma split_on_app_piece sep w : ∀ rest cur,
  Str.all_chars (fun c => negb (Ascii.eqb c sep)) w = true →
  split_on sep (w +:+ rest) cur = split_on sep rest (cur +:+ w).
Proof.
  induction w as [|c w IH]; intros rest cur Hw.
  - by rewrite append_nil_l, append_nil_r.
  - simpl in Hw. apply andb_true_iff in Hw as [Hc Hw].
    rewrite append_cons. simpl.
    apply negb_true_iff in Hc. rewrite Hc.
    rewrite IH by done. by rewrite append_assoc, append_cons, append_nil_l.
Qed.

Lemma split_on_join items : ∀ item cur,
  Forall (fun p => Str.all_chars not_comma p = true) (item :: items) →
  split_on "," (Str.join ", " (item :: items)) cur
  = (cur +:+ item) :: map (String " ") items.
Proof.
  induction items as [|item' items IH]; intros item cur Hall.
  - apply Forall_inv in Hall.
    change (Str.join ", " [item]) with item.
    rewrite <- (append_nil_r item) at 1.
    by rewrite split_on_app_piece by done.
  - apply Forall_cons in Hall as [Hitem Hall].
    change (Str.join ", " (item :: item' :: items))
      with (item +:+ String "," (String " " (Str.join ", " (item' :: items)))).
    rewrite split_on_app_piece by done.
    change (split_on "," (String "," (String " " (Str.join ", " (item' :: items))))
              (cur +:+ item))
      with ((cur +:+ item)
            :: split_on "," (Str.join ", " (item' :: items)) (String " " "")).
    rewrite IH by done. done.
Qed.

Lemma strip_space_cons s : Str.strip (String " " s) = Str.strip s.
Proof. reflexivity. Qed.

End CustomList.

(** X13: every entry of the custom list is non-empty, has no leading or
    trailing whitespace, and contains no comma. *)
Theorem custom_list_entries (custom_ingredients : string) :
  Forall is_entry (custom_list custom_ingredients).
Proof.
  unfold custom_list. destruct (Str.is_empty custom_ingredients); [done|].
  apply Forall_forall. intros x Hx.
  apply list_elem_of_fmap in Hx as (item & -> & Hitem).
  apply list_elem_of_In, filter_In in Hitem as [Hin Hne].
  apply negb_true_iff in Hne.
  split_and!; [done|apply strip_idem|].
  apply all_chars_strip.
  pose proof (split_on_pieces "," custom_ingredients "" eq_refl) as Hp.
  rewrite Forall_forall in Hp. apply Hp. by apply list_elem_of_In.
Qed.

(** X14: round trip with the [', '.join] of the recipe prompt: a list of
    entries joined by comma and space is read back as the same list. *)
Theorem custom_list_join (items : list string) :
  Forall is_entry items →
  custom_list (Str.join ", " items) = items.
Proof.
  intros Hitems. destruct items as [|item items]; [done|].
  unfold custom_list.
  assert (Str.is_empty (Str.join ", " (item :: items)) = false) as ->.
  { apply Forall_inv in Hitems as (Hne & _).
    destruct items; [done|]. by destruct item. }
  rewrite split_on_join, append_nil_l.
  2:{ eapply Forall_impl; [done|]. by intros p (_ & _ & ?). }
  apply Forall_cons in Hitems as [(Hne & Hs & _) Hitems].
  cbn [List.filter]. rewrite Hs, Hne. cbn [negb map]. rewrite Hs. f_equal.
  induction Hitems as [|p ps (Hne' & Hs' & _) Hps IH]; [done|].
  cbn [map List.filter]. rewrite strip_space_cons, Hs', Hne'.
  cbn [negb map]. by rewrite strip_space_cons, Hs', IH.
Qed.

(** ** The recipe invoker *)

(** X15: when the template is read and [str.format] rejects it (a stray
    brace, an unknown placeholder), the formatted error string of that
    exception is returned, and the text model is not consulted: the result
    is the same for every model and environment. *)
Theorem format_failure_is_caught
    (open_read : string → result string)
    (str_format : string → string → string → result string)
    (getenv : string → option string)
    (chat_create : string → string → result (option string))
    (ingredients : list string) (mood template : string) (e : exn) :
  open_read prompt_path = Ok template →
  str_format template (Str.join ", " ingredients) mood = Raise e →
  generate_recipes_from_prompt open_read str_format getenv chat_create
    ingredients mood
  = Ok (recipe_error_string e).
Proof.
  intros Hread Hfmt.
  unfold generate_recipes_from_prompt, generate_recipes_body.
  rewrite load_recipe_prompt_eq, Hread. simpl. by rewrite Hfmt.
Qed.

(** ** The statistics cards of the page *)

(** X16: the cards add up to at least the total. When the final list is
    the [list(set(...))] of the AI, common and custom selections and the AI
    selection was made among the suggested names, the AI count is at most
    the total, and the total is at most the AI count plus the manual
    count. *)
Theorem stats_cards_cover
    (selected_ai selected_common custom suggested final : list string) :
  list_of_set (selected_ai ++ selected_common ++ custom) final →
  selected_ai ⊆ suggested →
  ai_selected final suggested ≤ length final
  ∧ length final
    ≤ ai_selected final suggested + manual_selected selected_common custom.
Proof.
  intros [Hnd Hin] Hai. unfold ai_selected, manual_selected.
  split; [apply length_filter|].
  rewrite <- length_app.
  assert (length final
          = length (filter (fun ing => ing ∈ suggested) final)
            + length (filter (fun ing => ing ∉ suggested) final)) as ->.
  { clear. induction final as [|x l IH]; [done|].
    destruct (decide (x ∈ suggested)) as [Hx|Hx].
    - rewrite filter_cons_True, filter_cons_False by auto. simpl. lia.
    - rewrite filter_cons_False, filter_cons_True by auto. simpl. lia. }
  apply Nat.add_le_mono_l, submseteq_length, NoDup_submseteq.
  - by apply NoDup_filter.
  - intros x [Hx Hf]%list_elem_of_filter.
    apply Hin in Hf. rewrite elem_of_app in Hf.
    destruct Hf as [Hf|Hf]; [|done]. destruct Hx. by apply Hai.
Qed.

(** ** Witnesses of the further properties *)

Lemma ranker_tier_order_witness :
  get_ingredient_suggestions sixteen_detections = Ok sixteen_output
  ∧ (_get_ingredient_priority "onion" ≤ _get_ingredient_priority "kale")%Z.
Proof.
  assert (get_ingredient_suggestions sixteen_detections = Ok sixteen_output)
    as H by (vm_compute; reflexivity).
  split; [exact H|].
  apply (ranker_tier_order sixteen_detections sixteen_output 0 1 "onion" "kale" H);
    [reflexivity|reflexivity|lia].
Defined.

Lemma ranker_keeps_best_15_witness :
  get_ingredient_suggestions sixteen_detections = Ok sixteen_output
  ∧ length sixteen_output
    = 15 `min` length (dedup_first (candidates sixteen_detections))
  ∧ (length (dedup_first (candidates sixteen_detections)) ≤ 15 →
     sixteen_output ≡ₚ dedup_first (candidates sixteen_detections))
  ∧ ∀ x, x ∈ candidates sixteen_detections → x ∉ sixteen_output →
      length sixteen_output = 15
      ∧ ∀ y, y ∈ sixteen_output →
          (_get_ingredient_priority y ≤ _get_ingredient_priority x)%Z.
Proof.
  assert (get_ingredient_suggestions sixteen_detections = Ok sixteen_output)
    as H by (vm_compute; reflexivity).
  split; [exact H|].
  exact (ranker_keeps_best_15 sixteen_detections sixteen_output H).
Defined.

Lemma ranker_rejects_non_string_field_witness :
  Exists (fun d => str_fields d = false) null_name_detections
  ∧ ∃ msg,
      get_ingredient_suggestions null_name_detections
      = Raise (Exn AttributeError msg).
Proof.
  assert (Exists (fun d => str_fields d = false) null_name_detections)
    as H by (right; left; reflexivity).
  split; [exact H|].
  exact (ranker_rejects_non_string_field null_name_detections H).
Defined.

Lemma ranker_never_outputs_witness :
  get_ingredient_suggestions [bell_pepper_detection] = Ok ["bell peppers"]
  ∧ ("bell peppers" ∉ invalid_terms) ∧ "bell peppers" ≠ "bell pepper".
Proof.
  assert (get_ingredient_suggestions [bell_pepper_detection]
          = Ok ["bell peppers"]) as H by (vm_compute; reflexivity).
  split; [exact H|].
  apply (ranker_never_outputs [bell_pepper_detection] ["bell peppers"]
           "bell peppers" H).
  by left.
Defined.

Lemma parse_vision_response_ignores_prose_witness :
  Str.find "[" scenario_prose = (-1)%Z
  ∧ Str.rfind "]" " Enjoy!" = (-1)%Z
  ∧ _parse_vision_response Json.loads no_float_of_str
      (VStr (scenario_prose +:+ "[" +:+ scenario_object +:+ "]" +:+ " Enjoy!"))
    = _parse_vision_response Json.loads no_float_of_str
        (VStr ("[" +:+ scenario_object +:+ "]")).
Proof.
  assert (Str.find "[" scenario_prose = (-1)%Z) as H1 by reflexivity.
  assert (Str.rfind "]" " Enjoy!" = (-1)%Z) as H2 by reflexivity.
  split; [exact H1|]. split; [exact H2|].
  exact (parse_vision_response_ignores_prose Json.loads no_float_of_str
           scenario_prose scenario_object " Enjoy!" H1 H2).
Defined.

Lemma detect_grocery_items_failure_witness :
  (∀ s, vision_content unreadable_image numeric_name_answer "fridge.jpg"
        ≠ Ok (VStr s))
  ∧ detect_grocery_items Json.loads no_float_of_str unreadable_image
      numeric_name_answer default_threshold "fridge.jpg" = Ok [].
Proof.
  assert (∀ s, vision_content unreadable_image numeric_name_answer "fridge.jpg"
               ≠ Ok (VStr s)) as H by (intros s; discriminate).
  split; [exact H|].
  exact (detect_grocery_items_failure Json.loads no_float_of_str
           unreadable_image numeric_name_answer default_threshold
           "fridge.jpg" H).
Defined.

Lemma detect_objects_empty_on_failure_witness :
  detect_grocery_items Json.loads no_float_of_str readable_image
    numeric_name_answer default_threshold "fridge.jpg"
  = Ok numeric_name_detections
  ∧ (is_ok (Ok ()) = false
     ∨ Exists (fun d => str_fields d = false) numeric_name_detections)
  ∧ detect_objects_detectron2 Json.loads no_float_of_str readable_image
      numeric_name_answer (Ok ()) "fridge.jpg" = Ok [].
Proof.
  assert (detect_grocery_items Json.loads no_float_of_str readable_image
            numeric_name_answer default_threshold "fridge.jpg"
          = Ok numeric_name_detections) as H1 by (vm_compute; reflexivity).
  assert (is_ok (Ok ()) = false
          ∨ Exists (fun d => str_fields d = false) numeric_name_detections)
    as H2 by (right; left; reflexivity).
  split; [exact H1|]. split; [exact H2|].
  exact (detect_objects_empty_on_failure Json.loads no_float_of_str
           readable_image numeric_name_answer (Ok ()) "fridge.jpg"
           numeric_name_detections H1 H2).
Defined.

Lemma custom_list_join_witness :
  Forall is_entry ["olive oil"; "garlic"; "leftover chicken"]
  ∧ custom_list (Str.join ", " ["olive oil"; "garlic"; "leftover chicken"])
    = ["olive oil"; "garlic"; "leftover chicken"].
Proof.
  assert (Forall is_entry ["olive oil"; "garlic"; "leftover chicken"]) as H
    by (repeat constructor).
  split; [exact H|].
  exact (custom_list_join ["olive oil"; "garlic"; "leftover chicken"] H).
Defined.

Lemma format_failure_is_caught_witness :
  template_present prompt_path
  = Ok "Cook with {ingredients} in a {mood} mood."
  ∧ failing_format "Cook with {ingredients} in a {mood} mood."
      (Str.join ", " ["eggs"]) "Quick & Easy"
    = Raise (Exn KeyError "'servings'")
  ∧ generate_recipes_from_prompt template_present failing_format no_env
      padded_answer ["eggs"] "Quick & Easy"
    = Ok (recipe_error_string (Exn KeyError "'servings'")).
Proof.
  split; [reflexivity|]. split; [reflexivity|].
  exact (format_failure_is_caught template_present failing_format no_env
           padded_answer ["eggs"] "Quick & Easy"
           "Cook with {ingredients} in a {mood} mood."
           (Exn KeyError "'servings'") eq_refl eq_refl).
Defined.

Lemma stats_cards_cover_witness :
  list_of_set (["kale"] ++ ["eggs"; "milk"] ++ ["kale"; "rice"])
    ["rice"; "kale"; "milk"; "eggs"]
  ∧ ["kale"] ⊆ ["kale"; "onion"]
  ∧ ai_selected ["rice"; "kale"; "milk"; "eggs"] ["kale"; "onion"] ≤ 4
  ∧ 4 ≤ ai_selected ["rice"; "kale"; "milk"; "eggs"] ["kale"; "onion"]
        + manual_selected ["eggs"; "milk"] ["kale"; "rice"].
Proof.
  assert (list_of_set (["kale"] ++ ["eggs"; "milk"] ++ ["kale"; "rice"])
            ["rice"; "kale"; "milk"; "eggs"]) as H1.
  { split; [by apply (bool_decide_unpack _)|].
    intros x. simpl. rewrite !elem_of_cons, !elem_of_nil. tauto. }
  assert (["kale"] ⊆ ["kale"; "onion"]) as H2.
  { intros x Hx. apply list_elem_of_singleton in Hx as ->. by left. }
  split; [exact H1|]. split; [exact H2|].
  exact (stats_cards_cover ["kale"] ["eggs"; "milk"] ["kale"; "rice"]
           ["kale"; "onion"] ["rice"; "kale"; "milk"; "eggs"] H1 H2).
Defined.
